(** * Product Placement Assistant: the Streamlit workflow of [main.py]

    The program is a single Streamlit script.  On a click on "Analyze" it
    creates a TwelveLabs index, uploads the video into it, waits for the
    indexing task, and asks for a text generation about the indexed video.

    The embedding is shallow.  Python values become Rocq values, the
    exceptions of Python become an outcome of a small state-and-exception
    monad [Run], and everything outside the script (the secrets store, the
    clock, the TwelveLabs service, the widgets of the page) is read from two
    records, [Env] and [Interaction], that fix the answers of one script run.
    A [World] carries what the script mutates: [st.session_state], the page
    that Streamlit renders, and a chronological log of the calls that leave
    the script. *)

From Stdlib Require Import QArith.QArith_base Floats.PrimFloat.
From stdpp Require Import gmap strings list pretty.

Set Warnings "-inexact-float".
Local Open Scope Z_scope.

(** ** Python values and exceptions *)

(** A value kept in [st.session_state]: [None] or a [str]. *)
Inductive value : Type :=
  | VNone
  | VStr (s : string).

(** The two exception classes the script tells apart.  [ClsRuntimeError]
    is [RuntimeError]; [ClsException] stands for every other subclass of
    [Exception] ([KeyError] of the secrets store, the errors of the SDK).
    Interrupts ([KeyboardInterrupt], [SystemExit]) are outside the model. *)
Inductive exn_class : Type :=
  | ClsException
  | ClsRuntimeError.

(** An exception object; [str] is what [f"{e}"] renders. *)
Record exn : Type := Exn { exn_cls : exn_class; str : string }.

Definition RuntimeError (msg : string) : exn := Exn ClsRuntimeError msg.

(** [isinstance(e, c)]: [RuntimeError] is a subclass of [Exception]. *)
Definition isinstance (e : exn) (c : exn_class) : bool :=
  match c, exn_cls e with
  | ClsException, _ => true
  | ClsRuntimeError, ClsRuntimeError => true
  | ClsRuntimeError, ClsException => false
  end.

(** What a call into the SDK gives back: a value or a raised exception. *)
Inductive result (A : Type) : Type :=
  | Ok (a : A)
  | Err (e : exn).
Arguments Ok {A} a.
Arguments Err {A} e.

(** [int(x)] on a clock reading: truncation towards zero. *)
Definition int (x : Q) : Z := Z.quot (Qnum x) (Z.pos (Qden x)).

(** ** The objects of the SDK *)

(** One entry of the [models] list, [{"name": ..., "options": [...]}]. *)
Record Model : Type := { model_name : string; model_options : list string }.

(** [client.index.create] returns an index; the script reads [.id] and
    [.name], here [idx_id] and [idx_name]. *)
Record Index : Type := { idx_id : string; idx_name : string }.

(** A task handle; the script reads [.status] and [.video_id]. *)
Record Task : Type := { task_id : string; status : string; video_id : string }.

(** The result of [client.generate.text]; the script reads [.data]. *)
Record GenerateResult : Type := { gen_id : string; data : string }.

(** The client object, [TwelveLabs(api_key=...)]. *)
Record TwelveLabs : Type := { api_key : string }.

(** The object [st.file_uploader] returns when a file was chosen. *)
Record UploadedFile : Type := { file_name : string; file_bytes : list Byte.byte }.

(** ** The environment of one script run *)

(** The answers of everything outside the script during one run. *)
Record Env : Type := {
  (** [st.secrets], a read-only mapping *)
  secrets : gmap string string;
  (** [TwelveLabs(api_key=k)]: [Some e] when the constructor raises [e] *)
  client_init : string → option exn;
  (** [time.time()], seconds since the epoch *)
  now : Q;
  (** the answer of [client.index.create(name=, models=, addons=)] *)
  index_create : TwelveLabs → string → list Model → list string → result Index;
  (** the answer of [client.task.create(index_id=, file=)] *)
  task_create : TwelveLabs → string → UploadedFile → result Task;
  (** the answers of the service to the successive status polls *)
  task_retrieve : list (result Task);
  (** the status labels the service treats as terminal *)
  task_done : string → bool;
  (** the answer of [client.generate.text(video_id=, prompt=, temperature=)] *)
  generate_text : TwelveLabs → string → string → float → result GenerateResult
}.

(** What the user did on the page before this run of the script. *)
Record Interaction : Type := {
  (** the content of the "Prompt" text area *)
  prompt_text : string;
  (** the file in the uploader, [None] when there is none *)
  uploaded : option UploadedFile;
  (** whether this run was triggered by a click on "Analyze" *)
  analyze_clicked : bool
}.

(** ** The world the script acts on *)

(** The elements Streamlit renders, in page order. *)
Inductive element : Type :=
  | Title (body : string)
  | Text (body : string)
  | TextArea (label val help : string)
  | FileUploader (label : string) (types : list string) (help : string)
  | Button (label : string)
  | ErrorBox (body : string)
  | SuccessBox (body : string)
  | Empty.

(** The calls that leave the script, each with the answer it received. *)
Inductive call : Type :=
  | SecretsGet (key : string) (r : option string)
  | ClientInit (key : string) (r : option exn)
  | TimeTime (r : Q)
  | IndexCreate (c : TwelveLabs) (name : string) (models : list Model)
      (addons : list string) (r : result Index)
  | TaskCreate (c : TwelveLabs) (index : string) (file : UploadedFile)
      (r : result Task)
  | Sleep (seconds : Z)
  | TaskRetrieve (t : Task) (r : result Task)
  | GenerateText (c : TwelveLabs) (video prompt : string) (temperature : float)
      (r : result GenerateResult).

Record World : Type := {
  (** [st.session_state]; it outlives the script run *)
  session_state : gmap string value;
  (** the elements of the page, in order *)
  page : list element;
  (** the text of the spinner on display, if any *)
  spinner : option string;
  (** [st.set_page_config(page_title=, layout=)] *)
  page_config : option (string * string);
  (** the calls made so far, oldest first *)
  calls : list call
}.

Definition set_session_state (f : gmap string value → gmap string value)
    (w : World) : World :=
  {| session_state := f (session_state w); page := page w;
     spinner := spinner w; page_config := page_config w; calls := calls w |}.

Definition set_page (f : list element → list element) (w : World) : World :=
  {| session_state := session_state w; page := f (page w);
     spinner := spinner w; page_config := page_config w; calls := calls w |}.

Definition set_spinner (s : option string) (w : World) : World :=
  {| session_state := session_state w; page := page w;
     spinner := s; page_config := page_config w; calls := calls w |}.

Definition set_page_config (c : option (string * string)) (w : World) : World :=
  {| session_state := session_state w; page := page w;
     spinner := spinner w; page_config := c; calls := calls w |}.

Definition set_calls (f : list call → list call) (w : World) : World :=
  {| session_state := session_state w; page := page w;
     spinner := spinner w; page_config := page_config w; calls := f (calls w) |}.

(** Streamlit runs the script from the top on every interaction: the page
    starts empty, the session state is the one the previous run left. *)
Definition init_world (ss : gmap string value) : World :=
  {| session_state := ss; page := []; spinner := None;
     page_config := None; calls := [] |}.

(** ** The monad of script runs *)

(** A computation ends by returning, by raising, or it never ends
    ([Blocked]: the wait for the indexing task has no timeout). *)
Inductive outcome (A : Type) : Type :=
  | Returned (a : A)
  | Raised (e : exn)
  | Blocked.
Arguments Returned {A} a.
Arguments Raised {A} e.
Arguments Blocked {A}.

Definition Run (A : Type) : Type := World → outcome A * World.

Global Instance Run_ret : MRet Run := λ A a w, (Returned a, w).

Global Instance Run_bind : MBind Run := λ A B f m w,
  match m w with
  | (Returned a, w') => f a w'
  | (Raised e, w') => (Raised e, w')
  | (Blocked, w') => (Blocked, w')
  end.

Global Instance Run_throw : MThrow exn Run := λ A e w, (Raised e, w).

(** [try: body  except c as e: handler e] *)
Definition try_except {A} (body : Run A) (c : exn_class)
    (handler : exn → Run A) : Run A := λ w,
  match body w with
  | (Raised e, w') => if isinstance e c then handler e w' else (Raised e, w')
  | r => r
  end.

(** A computation that never returns. *)
Definition block {A} : Run A := λ w, (Blocked, w).

(** Append a call to the log. *)
Definition record_call (c : call) : Run unit := λ w,
  (Returned tt, set_calls (λ l, l ++ [c]) w).

(** Lift the answer of the SDK into the monad. *)
Definition answer {A} (r : result A) : Run A :=
  match r with
  | Ok a => mret a
  | Err e => mthrow e
  end.

(** ** Streamlit *)

Definition st_set_page_config (page_title layout : string) : Run unit := λ w,
  (Returned tt, set_page_config (Some (page_title, layout)) w).

Definition render (e : element) : Run unit := λ w,
  (Returned tt, set_page (λ p, p ++ [e]) w).

Definition st_title (body : string) : Run unit := render (Title body).
Definition st_write (body : string) : Run unit := render (Text body).
Definition st_error (body : string) : Run unit := render (ErrorBox body).
Definition st_success (body : string) : Run unit := render (SuccessBox body).

(** [st.empty()]: a placeholder, a new slot at the end of the page; the
    handle is the position of the slot. *)
Definition st_empty : Run nat := λ w,
  (Returned (length (page w)), set_page (λ p, p ++ [Empty]) w).

(** [placeholder.write(body)] replaces the content of the slot. *)
Definition placeholder_write (slot : nat) (body : string) : Run unit := λ w,
  (Returned tt, set_page (λ p, <[slot := Text body]> p) w).

(** [with st.spinner(text): body].  The spinner is taken down when the
    block is left, by a return or by an exception. *)
Definition st_spinner {A} (text : string) (body : Run A) : Run A := λ w,
  match body (set_spinner (Some text) w) with
  | (Blocked, w') => (Blocked, w')
  | (o, w') => (o, set_spinner None w')
  end.

(** [key in st.session_state] *)
Definition session_contains (key : string) : Run bool := λ w,
  (Returned (bool_decide (is_Some (session_state w !! key))), w).

(** [st.session_state.key = v] *)
Definition session_set (key : string) (v : value) : Run unit := λ w,
  (Returned tt, set_session_state (λ m, <[key := v]> m) w).

Section Script.

Variable env : Env.
Variable ui : Interaction.

Definition st_text_area (label val help : string) : Run string :=
  render (TextArea label val help);; mret (prompt_text ui).

Definition st_file_uploader (label : string) (types : list string)
    (help : string) : Run (option UploadedFile) :=
  render (FileUploader label types help);; mret (uploaded ui).

Definition st_button (label : string) : Run bool :=
  render (Button label);; mret (analyze_clicked ui).

(** ** The calls that leave the script *)

(** [st.secrets[key]]; a missing key raises.  The text of that error is
    Streamlit's and the script never shows it. *)
Definition secrets_getitem (key : string) : Run string :=
  let r := secrets env !! key in
  record_call (SecretsGet key r);;
  match r with
  | Some v => mret v
  | None => mthrow (Exn ClsException ("st.secrets has no key " +:+ key))
  end.

(** [TwelveLabs(api_key=key)] *)
Definition TwelveLabs_new (key : string) : Run TwelveLabs :=
  let r := client_init env key in
  record_call (ClientInit key r);;
  match r with
  | None => mret {| api_key := key |}
  | Some e => mthrow e
  end.

(** [time.time()] *)
Definition time_time : Run Q :=
  record_call (TimeTime (now env));; mret (now env).

(** [client.index.create(name=, models=, addons=)] *)
Definition client_index_create (client : TwelveLabs) (name : string)
    (models : list Model) (addons : list string) : Run Index :=
  let r := index_create env client name models addons in
  record_call (IndexCreate client name models addons r);; answer r.

(** [client.task.create(index_id=, file=)] *)
Definition client_task_create (client : TwelveLabs) (index : string)
    (file : UploadedFile) : Run Task :=
  let r := task_create env client index file in
  record_call (TaskCreate client index file r);; answer r.

(** [client.generate.text(video_id=, prompt=, temperature=)] *)
Definition client_generate_text (client : TwelveLabs) (video prompt : string)
    (temperature : float) : Run GenerateResult :=
  let r := generate_text env client video prompt temperature in
  record_call (GenerateText client video prompt temperature r);; answer r.

(** Modelled from the spec: [Task.wait_for_done] of the TwelveLabs SDK,
    whose code is not part of the repository.  While the task is not in a
    terminal state: wait one interval, poll the status, and hand the
    refreshed task to the callback.  A transport error of a poll is raised
    to the caller.  There is no timeout: when the service never reports a
    terminal state (the answers run out), the wait does not return.  The
    SDK refreshes the task object in place; here the refreshed task is
    returned. *)
Fixpoint wait_for_done (answers : list (result Task)) (sleep_interval : Z)
    (callback : Task → Run unit) (task : Task) : Run Task :=
  if task_done env (status task) then mret task
  else
    match answers with
    | [] => block
    | r :: answers' =>
        record_call (Sleep sleep_interval);;
        record_call (TaskRetrieve task r);;
        task' ← answer r;
        callback task';;
        wait_for_done answers' sleep_interval callback task'
    end.

(** ** 1. Setup and configuration *)

(** The statement at module level, run before [main()]. *)
Definition module_setup : Run unit :=
  st_set_page_config "Product Placement Assistant" "centered".

Definition create_twelvelabs_client : Run TwelveLabs :=
  api_key ← secrets_getitem "TWELVELABS_API_KEY";
  TwelveLabs_new api_key.

(** ** 2. Helper functions *)

Definition models : list Model :=
  [ {| model_name := "marengo2.7"; model_options := ["visual"; "audio"] |};
    {| model_name := "pegasus1.2"; model_options := ["visual"; "audio"] |} ].

Definition create_index (client : TwelveLabs) (index_name : string) : Run Index :=
  try_except
    (created_index ← client_index_create client index_name models ["thumbnail"];
     mret created_index)
    ClsException
    (λ e, mthrow (RuntimeError ("Failed to create index: " +:+ str e))).

(** The nested function [on_task_update]; it closes over the placeholder. *)
Definition on_task_update (status_placeholder : nat) (t : Task) : Run unit :=
  placeholder_write status_placeholder ("Indexing Status: " +:+ status t).

Definition upload_video_and_wait (client : TwelveLabs) (index_id : string)
    (video_file : UploadedFile) : Run string :=
  try_except
    (task ← client_task_create client index_id video_file;
     status_placeholder ← st_empty;
     task ← wait_for_done (task_retrieve env) 30
              (on_task_update status_placeholder) task;
     if negb (String.eqb (status task) "ready")
     then mthrow (RuntimeError
                    ("Indexing failed with status '" +:+ status task +:+ "'"))
     else mret (video_id task))
    ClsException
    (λ e, mthrow (RuntimeError ("Video upload/indexing failed: " +:+ str e))).

Definition generate_text_from_video (client : TwelveLabs)
    (video_id prompt : string) : Run string :=
  try_except
    (result ← client_generate_text client video_id prompt 0.7%float;
     mret (data result))
    ClsException
    (λ e, mthrow (RuntimeError ("Text generation failed: " +:+ str e))).

(** ** 3. Streamlit app *)

(** The message of the three [except RuntimeError] handlers of [main]. *)
Definition oops (e : exn) : string :=
  "Oops, it's not you—it's us. Please try again." +:+ "

" +:+ "Details: " +:+ str e.

(** [if key not in st.session_state: st.session_state.key = None] *)
Definition session_init (key : string) : Run unit :=
  present ← session_contains key;
  if negb present then session_set key VNone else mret tt.

(** [main()].  A [return] inside a handler ends the function: the handler
    yields [None] and the statements after the [try] are skipped. *)
Definition main : Run unit :=
  st_title "Product Placement Assistant";;
  st_write "Upload a video and click 'Analyze' to generate product placement insights.";;
  user_prompt ← st_text_area "Prompt"
    "Analyze the video and provide segments of the video that are ideal for brand placements."
    "Which products do you want to place within the video?";
  session_init "index_id";;
  session_init "video_id";;
  uploaded_file ← st_file_uploader "Upload your video" ["mp4"; "mov"; "avi"]
    "Please upload a valid video file.";
  clicked ← st_button "Analyze";
  if (clicked : bool) then
    match uploaded_file : option UploadedFile with
    | None => st_error "No video file provided. Please upload a valid file."
    | Some video =>
      client ← try_except (client ← create_twelvelabs_client; mret (Some client))
        ClsException
        (λ _, st_error "Could not initialize 12Labs client. Check your API key setup in st.secrets.";;
              mret None);
      match client : option TwelveLabs with
      | None => mret tt
      | Some client =>
        t ← time_time;
        let index_name := "my_product_index_" +:+ pretty (int t) in
        created ← try_except
          (created_index ← st_spinner "Creating a new 12Labs index..."
                             (create_index client index_name);
           st_success ("Index created: " +:+ idx_name created_index
                       +:+ " (ID: " +:+ idx_id created_index +:+ ")");;
           session_set "index_id" (VStr (idx_id created_index));;
           mret (Some created_index))
          ClsRuntimeError
          (λ e, st_error (oops e);; mret None);
        match created : option Index with
        | None => mret tt
        | Some created_index =>
          indexed ← try_except
            (video_id ← st_spinner "Uploading and indexing your video. Please wait..."
                          (upload_video_and_wait client (idx_id created_index) video);
             session_set "video_id" (VStr video_id);;
             st_success "Video indexing completed successfully!";;
             mret (Some video_id))
            ClsRuntimeError
            (λ e, st_error (oops e);; mret None);
          match indexed : option string with
          | None => mret tt
          | Some video_id =>
            try_except
              (generated_text ← st_spinner "Generating text from your video..."
                                  (generate_text_from_video client video_id user_prompt);
               st_success "Text generation successful!";;
               st_write "## Product placement insights";;
               st_write generated_text)
              ClsRuntimeError
              (λ e, st_error (oops e))
          end
        end
      end
    end
  else mret tt.

(** ** 4. Entry point *)

(** One run of the script: the module-level statements, then [main()]. *)
Definition script : Run unit := module_setup;; main.

End Script.

(** One run of the script in a session whose state is [ss]. *)
Definition run (env : Env) (ui : Interaction) (ss : gmap string value) :
    outcome unit * World :=
  script env ui (init_world ss).

(** ** Reading the log of a run *)

Definition is_index_create (c : call) : bool :=
  match c with IndexCreate _ _ _ _ _ => true | _ => false end.

Definition is_task_create (c : call) : bool :=
  match c with TaskCreate _ _ _ _ => true | _ => false end.

Definition is_generate (c : call) : bool :=
  match c with GenerateText _ _ _ _ _ => true | _ => false end.

(** The error a call into the service was answered with, if any. *)
Definition failure (c : call) : option exn :=
  match c with
  | IndexCreate _ _ _ _ (Err e) => Some e
  | TaskCreate _ _ _ (Err e) => Some e
  | TaskRetrieve _ (Err e) => Some e
  | GenerateText _ _ _ _ (Err e) => Some e
  | _ => None
  end.

(** The state of the task a call reports, if any. *)
Definition reported (c : call) : option Task :=
  match c with
  | TaskCreate _ _ _ (Ok t) => Some t
  | TaskRetrieve _ (Ok t) => Some t
  | _ => None
  end.

(** The latest state of the indexing task that the log has seen. *)
Definition observe (acc : option Task) (c : call) : option Task :=
  match reported c with
  | Some t => Some t
  | None => acc
  end.

Definition observed (l : list call) : option Task := fold_left observe l None.

(** The run has seen its task finish in the state [ready]. *)
Definition indexed (env : Env) (l : list call) : Prop :=
  ∃ t, observed l = Some t ∧ task_done env (status t) = true
       ∧ status t = "ready".

(** [polled env iv t l t']: [l] is the log of a series of answered polls,
    each one interval [iv] after the previous, that takes the task from
    state [t] to state [t']; no state before [t'] is terminal. *)
Inductive polled (env : Env) (iv : Z) : Task → list call → Task → Prop :=
  | polled_none t : polled env iv t [] t
  | polled_step t t1 l t' :
      task_done env (status t) = false →
      polled env iv t1 l t' →
      polled env iv t (Sleep iv :: TaskRetrieve t (Ok t1) :: l) t'.

(** What [session_init] leaves in the session state. *)
Definition initialised (key : string) (m : gmap string value) :
    gmap string value :=
  match m !! key with
  | Some _ => m
  | None => <[key := VNone]> m
  end.

(** The name [main] gives to the index of a run whose clock reads [t]. *)
Definition index_name_of (t : Q) : string :=
  "my_product_index_" +:+ pretty (int t).

(** ** Reading the page of a run *)

Definition is_error_box (e : element) : bool :=
  match e with ErrorBox _ => true | _ => false end.

Definition is_placeholder (e : element) : bool :=
  match e with Empty => true | _ => false end.

Definition is_secrets_get (c : call) : bool :=
  match c with SecretsGet _ _ => true | _ => false end.

Definition is_client_init (c : call) : bool :=
  match c with ClientInit _ _ => true | _ => false end.

(** The answers the polls of a log received, in order. *)
Definition answers_of (l : list call) : list (result Task) :=
  omap (λ c, match c with TaskRetrieve _ r => Some r | _ => None end) l.

(** [wait_ends env t more]: a wait that has brought the task to the state
    [t], with the answers [more] still to come, polls no further: the state
    is terminal, or the service has no more answers, or its next answer is
    an error. *)
Definition wait_ends (env : Env) (t : Task) (more : list (result Task)) : Prop :=
  task_done env (status t) = true ∨ more = [] ∨ ∃ e rest, more = Err e :: rest.

(** How many calls of a kind a log holds. *)
Definition count_calls (P : call → bool) (l : list call) : nat :=
  length (List.filter P l).

(** The five elements [main] renders before it looks at the click. *)
Definition page_head : list element :=
  [ Title "Product Placement Assistant";
    Text "Upload a video and click 'Analyze' to generate product placement insights.";
    TextArea "Prompt"
      "Analyze the video and provide segments of the video that are ideal for brand placements."
      "Which products do you want to place within the video?";
    FileUploader "Upload your video" ["mp4"; "mov"; "avi"]
      "Please upload a valid video file.";
    Button "Analyze" ].

(** What a call into the service must carry in a run with the interaction
    [ui]: the client built from the stored key, and the inputs of the run. *)
Definition carries_run_inputs (env : Env) (ui : Interaction) (c : call) : Prop :=
  match c with
  | IndexCreate client _ mods addons _ =>
      secrets env !! "TWELVELABS_API_KEY" = Some (api_key client)
      ∧ mods = models ∧ addons = ["thumbnail"]
  | TaskCreate client _ file _ =>
      secrets env !! "TWELVELABS_API_KEY" = Some (api_key client)
      ∧ uploaded ui = Some file
  | GenerateText client _ prompt _ _ =>
      secrets env !! "TWELVELABS_API_KEY" = Some (api_key client)
      ∧ prompt = prompt_text ui
  | _ => True
  end.

(** ** Sample runs *)

Definition sample_file : UploadedFile :=
  {| file_name := "clip.mp4"; file_bytes := [] |}.

Definition sample_task (s : string) : Task :=
  {| task_id := "task-1"; status := s; video_id := "video-1" |}.

(** A service that accepts every request; the secrets, the clock and the
    answers to the polls are left open. *)
Definition sample_env (keys : gmap string string) (t : Q)
    (answers : list (result Task)) : Env :=
  {| secrets := keys;
     client_init := λ _, None;
     now := t;
     index_create := λ _ name _ _, Ok {| idx_id := "index-1"; idx_name := name |};
     task_create := λ _ _ _, Ok (sample_task "pending");
     task_retrieve := answers;
     task_done := λ s, String.eqb s "ready" || String.eqb s "failed";
     generate_text := λ _ _ _ _, Ok {| gen_id := "gen-1"; data := "insights" |} |}.

Definition sample_keys : gmap string string :=
  {[ "TWELVELABS_API_KEY" := "key" ]}.

Definition env_ready : Env :=
  sample_env sample_keys (17000000002 # 10)
    [Ok (sample_task "indexing"); Ok (sample_task "ready")].

Definition env_ready_later : Env :=
  sample_env sample_keys (17000000009 # 10)
    [Ok (sample_task "indexing"); Ok (sample_task "ready")].

Definition env_failed : Env :=
  sample_env sample_keys (17000000002 # 10)
    [Ok (sample_task "indexing"); Ok (sample_task "failed")].

Definition env_no_key : Env :=
  sample_env ∅ (17000000002 # 10) [Ok (sample_task "ready")].

(** A service that refuses to create the index. *)
Definition env_no_index : Env :=
  {| secrets := sample_keys;
     client_init := λ _, None;
     now := 17000000002 # 10;
     index_create := λ _ _ _ _, Err (Exn ClsException "quota exceeded");
     task_create := λ _ _ _, Ok (sample_task "pending");
     task_retrieve := [];
     task_done := λ s, String.eqb s "ready" || String.eqb s "failed";
     generate_text := λ _ _ _ _, Err (Exn ClsException "unreachable") |}.

Definition ui_analyze : Interaction :=
  {| prompt_text := "Where would a soda can fit?";
     uploaded := Some sample_file;
     analyze_clicked := true |}.

Definition ui_no_file : Interaction :=
  {| prompt_text := "Where would a soda can fit?";
     uploaded := None;
     analyze_clicked := true |}.

Definition ui_idle : Interaction :=
  {| prompt_text := "Where would a soda can fit?";
     uploaded := Some sample_file;
     analyze_clicked := false |}.

(** A service whose answers to the submission, to the polls and to the
    generation request are left open. *)
Definition sample_service (submitted : result Task)
    (answers : list (result Task)) (generated : result GenerateResult) : Env :=
  {| secrets := sample_keys;
     client_init := λ _, None;
     now := 17000000002 # 10;
     index_create := λ _ name _ _, Ok {| idx_id := "index-1"; idx_name := name |};
     task_create := λ _ _ _, submitted;
     task_retrieve := answers;
     task_done := λ s, String.eqb s "ready" || String.eqb s "failed";
     generate_text := λ _ _ _ _, generated |}.

Definition env_no_task : Env :=
  sample_service (Err (Exn ClsException "file too large")) []
    (Ok {| gen_id := "gen-1"; data := "insights" |}).

Definition env_poll_error : Env :=
  sample_service (Ok (sample_task "pending"))
    [Ok (sample_task "indexing"); Err (Exn ClsException "connection reset")]
    (Ok {| gen_id := "gen-1"; data := "insights" |}).

Definition env_no_text : Env :=
  sample_service (Ok (sample_task "pending")) [Ok (sample_task "ready")]
    (Err (Exn ClsException "rate limited")).

Definition env_next_second : Env :=
  sample_env sample_keys (17000000012 # 10)
    [Ok (sample_task "indexing"); Ok (sample_task "ready")].

(** The session state a previous run has left. *)
Definition sample_session : gmap string value :=
  {[ "index_id" := VStr "index-0"; "video_id" := VStr "video-0" ]}.

(** ** Running the script symbolically *)

Lemma session_init_run key w :
  session_init key w = (Returned tt, set_session_state (initialised key) w).
Proof.
  unfold session_init, session_contains, session_set, initialised,
    set_session_state, mbind, Run_bind, mret, Run_ret.
  destruct w as [ss pg sp pc cl]; cbn [session_state page spinner page_config calls].
  destruct (ss !! key) as [v|] eqn:E.
  - rewrite bool_decide_eq_true_2 by eauto. reflexivity.
  - rewrite bool_decide_eq_false_2 by (intros [? ?]; congruence). reflexivity.
Qed.

Lemma polled_nil_inv env iv t t' : polled env iv t [] t' → t' = t.
Proof. inversion 1; reflexivity. Qed.

Lemma wait_for_done_spec env answers iv slot t w o w' :
  wait_for_done env answers iv (on_task_update slot) t w = (o, w') →
  ∃ l t', polled env iv t l t'
    ∧ session_state w' = session_state w
    ∧ spinner w' = spinner w
    ∧ page_config w' = page_config w
    ∧ page w' = match l with
                | [] => page w
                | _ => <[slot := Text ("Indexing Status: " +:+ status t')]> (page w)
                end
    ∧ match o with
      | Returned r =>
          r = t' ∧ task_done env (status t') = true ∧ calls w' = calls w ++ l
      | Raised e =>
          task_done env (status t') = false
          ∧ calls w' = calls w ++ l ++ [Sleep iv; TaskRetrieve t' (Err e)]
      | Blocked =>
          task_done env (status t') = false ∧ calls w' = calls w ++ l
      end.
Proof.
  revert t w. induction answers as [|r answers IH]; intros t w; simpl;
    destruct (task_done env (status t)) eqn:Hdone.
  - intros [= <- <-]. exists [], t. rewrite app_nil_r. eauto 10 using polled_none.
  - intros [= <- <-]. exists [], t. rewrite app_nil_r. eauto 10 using polled_none.
  - intros [= <- <-]. exists [], t. rewrite app_nil_r. eauto 10 using polled_none.
  - destruct w as [ss pg sp pc cl].
    destruct r as [t1|e]; intros Hrun;
      cbv beta iota zeta delta [mbind Run_bind mret Run_ret mthrow Run_throw
        record_call answer set_calls on_task_update placeholder_write set_page
        session_state page spinner page_config calls] in Hrun.
    + apply IH in Hrun as (l & t' & Hp & Hss & Hsp & Hpc & Hpg & Ho).
      cbn [session_state page spinner page_config calls] in *.
      exists (Sleep iv :: TaskRetrieve t (Ok t1) :: l), t'.
      split; [by apply polled_step|]. do 3 (split; [done|]). split.
      * rewrite Hpg. destruct l; [|apply list_insert_insert_eq].
        by rewrite (polled_nil_inv _ _ _ _ Hp).
      * destruct o; rewrite <- !app_assoc in Ho; exact Ho.
    + injection Hrun as <- <-. exists [], t.
      cbn [session_state page spinner page_config calls app].
      rewrite <- app_assoc. eauto 10 using polled_none.
Qed.

(** Unfold the script down to the answers of the environment. *)
Ltac run_unfold :=
  repeat progress
    (cbv beta iota zeta delta
       [run script main module_setup init_world create_twelvelabs_client
        create_index upload_video_and_wait generate_text_from_video
        st_set_page_config st_title st_write st_error st_success st_empty
        st_spinner st_text_area st_file_uploader st_button render
        secrets_getitem TwelveLabs_new time_time client_index_create
        client_task_create client_generate_text
        try_except isinstance RuntimeError answer record_call block
        session_set set_session_state set_page set_spinner set_page_config
        set_calls session_state page spinner page_config calls
        mbind Run_bind mret Run_ret mthrow Run_throw fst snd negb];
     cbn [app exn_cls str]).

(** Replace the world after the wait by what [wait_for_done_spec] says
    about it. *)
Ltac run_wait :=
  match goal with
  | |- context [wait_for_done ?e ?a ?i (on_task_update ?s) ?t ?w] =>
      let o := fresh "o" in
      let w' := fresh "w" in
      let H := fresh "Hwait" in
      let l := fresh "l" in
      let t' := fresh "t" in
      let Hp := fresh "Hpolled" in
      let Hss := fresh "Hss" in
      let Hsp := fresh "Hsp" in
      let Hpc := fresh "Hpc" in
      let Hpg := fresh "Hpg" in
      let Ho := fresh "Ho" in
      destruct (wait_for_done e a i (on_task_update s) t w) as [o w'] eqn:H;
      apply wait_for_done_spec in H as (l & t' & Hp & Hss & Hsp & Hpc & Hpg & Ho);
      destruct w' as [? ? ? ? ?];
      cbn [session_state page spinner page_config calls app] in Hss, Hsp, Hpc, Hpg, Ho;
      destruct o as [?|?|];
      [ destruct Ho as (-> & ? & ->) | destruct Ho as (? & ->) | destruct Ho as (? & ->) ];
      subst
  end.

(** One step of the run: ask the environment for its next answer. *)
Ltac run_step :=
  run_unfold;
  match goal with
  | |- context [session_init ?k ?w] => rewrite (session_init_run k w)
  | |- context [analyze_clicked ?u] => destruct (analyze_clicked u) eqn:?
  | |- context [match uploaded ?u with _ => _ end] => destruct (uploaded u) eqn:?
  | |- context [match secrets ?e !! ?k with _ => _ end] =>
      destruct (secrets e !! k) eqn:?
  | |- context [match client_init ?e ?k with _ => _ end] =>
      destruct (client_init e k) eqn:?
  | |- context [match index_create ?e ?c ?n ?m ?a with _ => _ end] =>
      destruct (index_create e c n m a) eqn:?
  | |- context [match task_create ?e ?c ?i ?f with _ => _ end] =>
      destruct (task_create e c i f) eqn:?
  | |- context [match generate_text ?e ?c ?v ?p ?t with _ => _ end] =>
      destruct (generate_text e c v p t) eqn:?
  | |- context [match String.eqb ?a ?b with _ => _ end] =>
      destruct (String.eqb a b) eqn:?
  | |- _ => run_wait
  end.

Ltac run_all := repeat run_step; run_unfold.

(** ** Facts about logs *)

Lemma polled_Forall (P : call → Prop) env iv t l t' :
  P (Sleep iv) →
  (∀ t0 t1, P (TaskRetrieve t0 (Ok t1))) →
  polled env iv t l t' → Forall P l.
Proof.
  intros Hsleep Hget. induction 1 as [|t t1 l t' _ _ IH]; repeat constructor; auto.
Qed.

Lemma polled_observe env iv t l t' rest :
  polled env iv t l t' →
  fold_left observe (l ++ rest) (Some t) = fold_left observe rest (Some t').
Proof. induction 1 as [|t t1 l t' _ _ IH]; [reflexivity|exact IH]. Qed.

Lemma polled_observe_end env iv t l t' :
  polled env iv t l t' → fold_left observe l (Some t) = Some t'.
Proof.
  intros H. rewrite <- (app_nil_r l). by rewrite (polled_observe _ _ _ _ _ [] H).
Qed.

Lemma polled_filter (P : call → bool) env iv t l t' :
  P (Sleep iv) = false →
  (∀ t0 t1, P (TaskRetrieve t0 (Ok t1)) = false) →
  polled env iv t l t' → List.filter P l = [].
Proof.
  intros Hsleep Hget. induction 1 as [|t t1 l t' _ _ IH]; [reflexivity|].
  cbn [List.filter]. by rewrite Hsleep, Hget.
Qed.

(** A log has at most one way to be split around a call of a kind that
    occurs in it once. *)
Lemma split_unique (P : call → bool) l1 x l2 pre y post :
  l1 ++ x :: l2 = pre ++ y :: post →
  Forall (λ c, P c = false) l1 →
  Forall (λ c, P c = false) l2 →
  P y = true →
  pre = l1 ∧ y = x ∧ post = l2.
Proof.
  revert pre. induction l1 as [|a l1 IH]; intros pre Heq H1 H2 Hy.
  - destruct pre as [|p pre]; simplify_eq/=; [done|].
    apply Forall_app in H2 as [_ H2]. inversion H2; congruence.
  - inversion H1 as [|? ? Ha H1']; subst.
    destruct pre as [|p pre]; simplify_eq/=; [congruence|].
    destruct (IH pre) as (-> & -> & ->); auto.
Qed.

Lemma not_in_log (P : call → bool) l pre y post :
  l = pre ++ y :: post → Forall (λ c, P c = false) l → P y = true → False.
Proof.
  intros -> H Hy. apply Forall_app in H as [_ H]. inversion H; congruence.
Qed.

(** Discharge [Forall P] over the log of a run. *)
Ltac log_forall :=
  solve [ repeat first
    [ exact (List.Forall_nil _)
    | apply List.Forall_cons; [by repeat split|]
    | apply Forall_app; split
    | eapply polled_Forall; [| |eassumption];
      [by repeat split|by intros; repeat split] ] ].

(** Split a membership in the log of a run into its cases. *)
Ltac log_elem H :=
  repeat first
    [ apply elem_of_nil in H; destruct H
    | apply elem_of_cons in H as [H|H]
    | apply elem_of_app in H as [H|H] ].

Lemma polled_elem env iv t l t' c :
  polled env iv t l t' → c ∈ l →
  c = Sleep iv ∨ ∃ t0 t1, c = TaskRetrieve t0 (Ok t1).
Proof.
  intros Hp Hc.
  eapply (polled_Forall (λ c, c = Sleep iv ∨ ∃ t0 t1, c = TaskRetrieve t0 (Ok t1)))
    in Hp; [|by left|by intros; right; eauto].
  rewrite Forall_forall in Hp. auto.
Qed.

(** ** The wait as a function of the answers *)

Lemma polls_exist env iv answers t :
  ∃ l t' more, polled env iv t l t'
    ∧ answers = answers_of l ++ more
    ∧ wait_ends env t' more.
Proof.
  revert t. induction answers as [|r answers IH]; intros t.
  - exists [], t, []. split; [constructor|]. split; [reflexivity|]. right. by left.
  - destruct (task_done env (status t)) eqn:Hdone.
    { exists [], t, (r :: answers). split; [constructor|]. split; [reflexivity|].
      by left. }
    destruct r as [t1|e].
    + destruct (IH t1) as (l & t' & more & Hp & -> & Hend).
      exists (Sleep iv :: TaskRetrieve t (Ok t1) :: l), t', more.
      split; [by constructor|]. split; [reflexivity|exact Hend].
    + exists [], t, (Err e :: answers). split; [constructor|].
      split; [reflexivity|]. right. right. eauto.
Qed.

(** What the wait does is fixed by the answers of the service: it makes
    the polls [l], hands each refreshed task to [on_task_update], and ends
    as the state [t'] and the next answer say. *)
Lemma wait_for_done_replay env iv slot t l t' more w :
  polled env iv t l t' →
  wait_ends env t' more →
  wait_for_done env (answers_of l ++ more) iv (on_task_update slot) t w
  = (if task_done env (status t') then Returned t'
     else match more with
          | Err e :: _ => Raised e
          | _ => Blocked
          end,
     set_page
       (λ p, match l with
             | [] => p
             | _ => <[slot := Text ("Indexing Status: " +:+ status t')]> p
             end)
       (set_calls
          (λ c, c ++ l ++ (if task_done env (status t') then []
                           else match more with
                                | Err e :: _ => [Sleep iv; TaskRetrieve t' (Err e)]
                                | _ => []
                                end))
          w)).
Proof.
  intros Hp. revert w. induction Hp as [t|t t1 l t' Hdone Hp IH]; intros w Hend.
  - destruct w as [ss pg sp pc cl]. cbn [answers_of omap list_omap app].
    destruct (task_done env (status t)) eqn:Hdone.
    { destruct more; simpl; rewrite Hdone; unfold mret, Run_ret, set_page,
        set_calls; cbn; by rewrite app_nil_r. }
    destruct Hend as [?|[->|(e & rest & ->)]]; [congruence| |]; simpl;
      rewrite Hdone.
    + unfold block, set_page, set_calls; cbn. by rewrite app_nil_r.
    + cbv beta iota zeta delta [mbind Run_bind mret Run_ret mthrow Run_throw
        record_call answer set_calls set_page session_state page spinner
        page_config calls].
      by rewrite <- app_assoc.
  - specialize (IH (set_page (λ p, <[slot := Text ("Indexing Status: " +:+ status t1)]> p)
                      (set_calls (λ c, (c ++ [Sleep iv]) ++ [TaskRetrieve t (Ok t1)]) w))
                   Hend).
    destruct w as [ss pg sp pc cl].
    change (answers_of (Sleep iv :: TaskRetrieve t (Ok t1) :: l) ++ more)
      with (Ok t1 :: (answers_of l ++ more)).
    cbn [wait_for_done]. rewrite Hdone.
    cbv beta iota zeta delta [mbind Run_bind mret Run_ret mthrow Run_throw
      record_call answer set_calls set_page on_task_update placeholder_write
      session_state page spinner page_config calls] in IH |- *.
    rewrite IH. f_equal. f_equal.
    + destruct l; [|apply list_insert_insert_eq].
      by rewrite (polled_nil_inv _ _ _ _ Hp).
    + by rewrite <- !app_assoc.
Qed.

(** The wait acts on every world in the same way. *)
Lemma wait_for_done_run env answers iv slot t :
  ∃ o l f, ∀ w,
    wait_for_done env answers iv (on_task_update slot) t w
    = (o, set_page f (set_calls (λ c, c ++ l) w)).
Proof.
  destruct (polls_exist env iv answers t) as (l & t' & more & Hp & -> & Hend).
  eexists _, _, _. intros w. by rewrite (wait_for_done_replay _ _ _ _ _ _ _ _ Hp Hend).
Qed.

(** With a callback that appends a line to the page, the page gains one
    line for every answered poll, in order, with the status of that poll:
    the wait calls back once on each poll. *)
Lemma wait_for_done_calls_back env iv t l t' w :
  polled env iv t l t' →
  wait_for_done env (answers_of l) iv (λ t, st_write (status t)) t w
  = (if task_done env (status t') then Returned t' else Blocked,
     set_page (λ p, p ++ ((λ t, Text (status t)) <$> omap reported l))
       (set_calls (λ c, c ++ l) w)).
Proof.
  intros Hp. revert w. induction Hp as [t|t t1 l t' Hdone Hp IH]; intros w.
  - destruct w as [ss pg sp pc cl]. cbn [answers_of omap list_omap wait_for_done].
    destruct (task_done env (status t));
      unfold mret, Run_ret, block, set_page, set_calls; cbn;
      by rewrite !app_nil_r.
  - change (answers_of (Sleep iv :: TaskRetrieve t (Ok t1) :: l))
      with (Ok t1 :: answers_of l).
    destruct w as [ss pg sp pc cl]. cbn [wait_for_done]. rewrite Hdone.
    cbv beta iota zeta delta [mbind Run_bind mret Run_ret mthrow Run_throw
      record_call answer set_calls set_page st_write render
      session_state page spinner page_config calls].
    rewrite IH. unfold set_page, set_calls. cbn. by rewrite <- !app_assoc.
Qed.

(** Replace the wait by its action on the world. *)
Ltac run_wait_eq :=
  match goal with
  | |- context [wait_for_done ?e ?a ?i (on_task_update ?s) ?t _] =>
      let o := fresh "o" in
      let l := fresh "l" in
      let f := fresh "f" in
      let H := fresh "Hwait" in
      destruct (wait_for_done_run e a i s t) as (o & l & f & H);
      rewrite !H; clear H; destruct o as [?|?|]
  end.

(** Run the script on several worlds at once. *)
Ltac run_all_eq :=
  repeat
    (run_unfold;
     match goal with
     | |- context [session_init ?k ?w] => rewrite (session_init_run k w)
     | |- context [analyze_clicked ?u] => destruct (analyze_clicked u) eqn:?
     | |- context [match uploaded ?u with _ => _ end] => destruct (uploaded u) eqn:?
     | |- context [match secrets ?e !! ?k with _ => _ end] =>
         destruct (secrets e !! k) eqn:?
     | |- context [match client_init ?e ?k with _ => _ end] =>
         destruct (client_init e k) eqn:?
     | |- context [match index_create ?e ?c ?n ?m ?a with _ => _ end] =>
         destruct (index_create e c n m a) eqn:?
     | |- context [match task_create ?e ?c ?i ?f with _ => _ end] =>
         destruct (task_create e c i f) eqn:?
     | |- context [match generate_text ?e ?c ?v ?p ?t with _ => _ end] =>
         destruct (generate_text e c v p t) eqn:?
     | |- context [match String.eqb ?a ?b with _ => _ end] =>
         destruct (String.eqb a b) eqn:?
     | |- _ => run_wait_eq
     end);
  run_unfold.

(** ** The script on sample runs *)

(** The calls of a run in which the task becomes ready at the second poll. *)
Example run_ready_calls :
  calls (run env_ready ui_analyze ∅).2
  = [ SecretsGet "TWELVELABS_API_KEY" (Some "key");
      ClientInit "key" None;
      TimeTime (17000000002 # 10);
      IndexCreate {| api_key := "key" |} "my_product_index_1700000000" models
        ["thumbnail"]
        (Ok {| idx_id := "index-1"; idx_name := "my_product_index_1700000000" |});
      TaskCreate {| api_key := "key" |} "index-1" sample_file
        (Ok (sample_task "pending"));
      Sleep 30;
      TaskRetrieve (sample_task "pending") (Ok (sample_task "indexing"));
      Sleep 30;
      TaskRetrieve (sample_task "indexing") (Ok (sample_task "ready"));
      GenerateText {| api_key := "key" |} "video-1" "Where would a soda can fit?"
        0.7%float (Ok {| gen_id := "gen-1"; data := "insights" |}) ].
Proof. vm_compute. reflexivity. Qed.

(** What that run adds to the page below the "Analyze" button. *)
Example run_ready_page :
  drop 5 (page (run env_ready ui_analyze ∅).2)
  = [ SuccessBox "Index created: my_product_index_1700000000 (ID: index-1)";
      Text "Indexing Status: ready";
      SuccessBox "Video indexing completed successfully!";
      SuccessBox "Text generation successful!";
      Text "## Product placement insights";
      Text "insights" ].
Proof. vm_compute. reflexivity. Qed.

(** The session state after a run whose task ends as "failed". *)
Example run_failed_session :
  session_state (run env_failed ui_analyze sample_session).2
  = {[ "index_id" := VStr "index-1"; "video_id" := VStr "video-0" ]}.
Proof. apply map_eq. intros k. vm_compute. reflexivity. Qed.

(** A service that never reports a terminal state blocks the run, with the
    spinner of the upload stage still on display. *)
Example run_without_answers_blocks :
  (run (sample_env sample_keys (17000000002 # 10) []) ui_analyze ∅).1 = Blocked
  ∧ spinner (run (sample_env sample_keys (17000000002 # 10) []) ui_analyze ∅).2
    = Some "Uploading and indexing your video. Please wait...".
Proof. split; vm_compute; reflexivity. Qed.

(** [main] catches whatever its stages raise: a run returns, unless the
    wait for the task never ends. *)
Lemma run_returns_or_blocks env ui ss :
  (run env ui ss).1 = Returned tt ∨ (run env ui ss).1 = Blocked.
Proof. run_all; auto. Qed.

(** ** The claims *)

(** C4. A run with no uploaded file makes no call at all: it reads no
    secret, builds no client, and calls no operation of the service.  When
    the run was triggered by a click on "Analyze", the page ends with the
    validation error and [main] returns. *)
Theorem missing_file_makes_no_call env ui ss :
  uploaded ui = None →
  calls (run env ui ss).2 = []
  ∧ (run env ui ss).1 = Returned tt
  ∧ (analyze_clicked ui = true →
     last (page (run env ui ss).2)
     = Some (ErrorBox "No video file provided. Please upload a valid file.")).
Proof.
  intros Hfile. run_all; try congruence; repeat split; congruence.
Qed.

(** C3. When the creation of the index fails, that call is the last one
    of the run: no task is submitted and no text generation is requested.
    [main] returns after showing the wrapped error. *)
Theorem failed_index_creation_ends_the_run env ui ss c name mods addons e :
  IndexCreate c name mods addons (Err e) ∈ calls (run env ui ss).2 →
  Forall (λ c, is_task_create c = false ∧ is_generate c = false)
    (calls (run env ui ss).2)
  ∧ last (calls (run env ui ss).2) = Some (IndexCreate c name mods addons (Err e))
  ∧ (run env ui ss).1 = Returned tt
  ∧ last (page (run env ui ss).2)
    = Some (ErrorBox (oops (RuntimeError ("Failed to create index: " +:+ str e)))).
Proof.
  run_all; intros Hin; log_elem Hin; try discriminate.
  all: try (eapply polled_elem in Hin as [?|(? & ? & ?)]; [| |eassumption];
            discriminate).
  simplify_eq. repeat split. log_forall.
Qed.

(** Compute what the log of a run has observed of the task. *)
Ltac log_observed :=
  unfold observed; cbn [fold_left observe reported];
  try (erewrite polled_observe by eassumption);
  try (erewrite polled_observe_end by eassumption);
  cbn [fold_left observe reported].

(** C1. When the indexing task ends in a terminal status other than
    "ready", the run requests no text generation, and [main] returns after
    showing the indexing error, whose message carries that status. *)
Theorem failed_indexing_skips_generation env ui ss t :
  observed (calls (run env ui ss).2) = Some t →
  task_done env (status t) = true →
  status t ≠ "ready" →
  Forall (λ c, is_generate c = false) (calls (run env ui ss).2)
  ∧ (run env ui ss).1 = Returned tt
  ∧ last (page (run env ui ss).2)
    = Some (ErrorBox (oops (RuntimeError
        ("Video upload/indexing failed: "
         +:+ "Indexing failed with status '" +:+ status t +:+ "'")))).
Proof.
  run_all; log_observed; intros Hobs Hdone Hne; simplify_eq; try congruence.
  - exfalso. apply Hne. by apply String.eqb_eq.
  - exfalso. apply Hne. by apply String.eqb_eq.
  - repeat split; [log_forall|apply last_snoc].
Qed.

Lemma split_cons (P : call → bool) a l pre y post :
  a :: l = pre ++ y :: post → P a = false → P y = true →
  ∃ pre', pre = a :: pre' ∧ l = pre' ++ y :: post.
Proof. destruct pre as [|p pre]; intros; simplify_eq/=; [congruence|eauto]. Qed.

(** Walk along the log of a run up to the first call of the kind [P]. *)
Ltac log_split P H :=
  repeat (apply (split_cons P) in H; [|reflexivity|reflexivity];
          let H' := fresh in
          destruct H as (? & -> & H'); rename H' into H).

(** C2. Every generation request is preceded in the log of its run by
    the submission of the task and by an observation of that task in the
    terminal state "ready", and it is made for the video of that task.
    Every task submission is preceded by a successful creation of the index
    it names. *)
Theorem calls_follow_the_stages env ui ss :
  (∀ pre c video prompt temp r post,
     calls (run env ui ss).2 = pre ++ GenerateText c video prompt temp r :: post →
     ∃ t, observed pre = Some t
          ∧ task_done env (status t) = true
          ∧ status t = "ready"
          ∧ video_id t = video
          ∧ ∃ pre1 index file t0 pre2,
              pre = pre1 ++ TaskCreate c index file (Ok t0) :: pre2)
  ∧ (∀ pre c index file r post,
       calls (run env ui ss).2 = pre ++ TaskCreate c index file r :: post →
       ∃ pre1 name mods addons idx pre2,
         pre = pre1 ++ IndexCreate c name mods addons (Ok idx) :: pre2
         ∧ index = idx_id idx).
Proof.
  split.
  - run_all; intros pre c video prompt temp r post Hlog.
    all: try (exfalso; eapply (not_in_log is_generate);
              [exact Hlog|log_forall|reflexivity]).
    all: log_split is_generate Hlog;
      apply (split_unique is_generate) in Hlog as (-> & ? & ->);
      [|log_forall|log_forall|reflexivity]; simplify_eq.
    all: eexists; split; [log_observed; reflexivity|].
    all: repeat split; [done|by apply String.eqb_eq|].
    all: by eexists [_; _; _; _], _, _, _, _.
  - run_all; intros pre c index file r post Hlog.
    all: try (exfalso; eapply (not_in_log is_task_create);
              [exact Hlog|log_forall|reflexivity]).
    all: log_split is_task_create Hlog;
      apply (split_unique is_task_create []) in Hlog as (-> & ? & ->);
      [|log_forall|log_forall|reflexivity]; simplify_eq.
    all: by eexists [_; _; _], _, _, _, _, [].
Qed.

(** A call of a series of answered polls carries no error. *)
Lemma polled_failure env iv t l t' c e :
  polled env iv t l t' → c ∈ l → failure c = Some e → False.
Proof.
  intros Hp Hc Hf.
  destruct (polled_elem _ _ _ _ _ _ Hp Hc) as [->|(? & ? & ->)]; discriminate.
Qed.

(** C5. In each of the three stage functions, an error that a call into
    the service is answered with is caught there and raised again as a
    [RuntimeError] whose message is the prefix of the stage followed by the
    message of the original error.  Whatever a stage function raises is
    such a [RuntimeError]: no error of the service leaves it unwrapped. *)
Theorem stage_errors_are_wrapped env client :
  (∀ name w,
     let r := create_index env client name w in
     ∃ l, calls r.2 = calls w ++ l
       ∧ (∀ c e, c ∈ l → failure c = Some e →
            r.1 = Raised (RuntimeError ("Failed to create index: " +:+ str e)))
       ∧ (∀ e', r.1 = Raised e' →
            exn_cls e' = ClsRuntimeError
            ∧ ∃ m, str e' = "Failed to create index: " +:+ m))
  ∧ (∀ index file w,
       let r := upload_video_and_wait env client index file w in
       ∃ l, calls r.2 = calls w ++ l
         ∧ (∀ c e, c ∈ l → failure c = Some e →
              r.1 = Raised (RuntimeError
                              ("Video upload/indexing failed: " +:+ str e)))
         ∧ (∀ e', r.1 = Raised e' →
              exn_cls e' = ClsRuntimeError
              ∧ ∃ m, str e' = "Video upload/indexing failed: " +:+ m))
  ∧ (∀ video prompt w,
       let r := generate_text_from_video env client video prompt w in
       ∃ l, calls r.2 = calls w ++ l
         ∧ (∀ c e, c ∈ l → failure c = Some e →
              r.1 = Raised (RuntimeError ("Text generation failed: " +:+ str e)))
         ∧ (∀ e', r.1 = Raised e' →
              exn_cls e' = ClsRuntimeError
              ∧ ∃ m, str e' = "Text generation failed: " +:+ m)).
Proof.
  split; [|split]; intros until w; destruct w as [ss pg sp pc cl]; run_all;
    rewrite <- ?app_assoc; (eexists; split; [reflexivity|]); split.
  all: try (intros c e' Hin Hf; log_elem Hin; subst; try discriminate;
            try (by destruct (polled_failure _ _ _ _ _ _ _ Hpolled Hin Hf));
            by simplify_eq/=).
  all: intros e' He'; simplify_eq; eauto.
Qed.

(** C6. The generation stage asks the service once, with the sampling
    temperature 0.7, and returns the [data] field of a successful answer.
    In a whole run, every generation request carries that temperature. *)
Theorem generation_uses_temperature_07 env :
  (∀ client video prompt w,
     let r := generate_text_from_video env client video prompt w in
     calls r.2
     = calls w ++ [GenerateText client video prompt 0.7%float
                     (generate_text env client video prompt 0.7%float)]
     ∧ (∀ res, generate_text env client video prompt 0.7%float = Ok res →
               r.1 = Returned (data res)))
  ∧ (∀ ui ss c video prompt temp r,
       GenerateText c video prompt temp r ∈ calls (run env ui ss).2 →
       temp = 0.7%float).
Proof.
  split.
  - intros until w. destruct w as [ss pg sp pc cl]. run_all.
    all: split; [reflexivity|congruence].
  - intros ui ss. run_all; intros c video prompt temp r Hin; log_elem Hin;
      try discriminate.
    all: try (eapply polled_elem in Hin as [?|(? & ? & ?)]; [| |eassumption];
              discriminate).
    all: by simplify_eq.
Qed.

Lemma list_insert_end {A} (l : list A) (x y : A) :
  <[length l := x]> (l ++ [y]) = l ++ [x].
Proof. induction l as [|a l IH]; simpl; [reflexivity|by rewrite IH]. Qed.

(** C9. After a successful submission the upload stage polls the task
    for as long as its state is not terminal, with a pause of 30 before
    every poll, and it polls no further once the state is terminal, the
    service has no more answers, or a poll fails.  The answers of the
    service fix the polls [l] and with them the whole stage: its log is the
    submission followed by these polls, and it returns the video of a
    "ready" task, raises the wrapped error otherwise, or waits on.  Each
    answered poll is handed to the callback, which overwrites the one
    placeholder that the stage added to the page: after any number of polls
    the page has grown by that single element, and it shows the status of
    the latest poll.  A callback that appends instead would leave one line
    for every poll. *)
Theorem indexing_wait_polls_every_30 env client index file w t0 :
  task_create env client index file = Ok t0 →
  let r := upload_video_and_wait env client index file w in
  (∃ l t' more,
     polled env 30 t0 l t'
     ∧ task_retrieve env = answers_of l ++ more
     ∧ wait_ends env t' more)
  ∧ (∀ l t' more,
       polled env 30 t0 l t' →
       task_retrieve env = answers_of l ++ more →
       wait_ends env t' more →
       calls r.2
       = calls w ++ TaskCreate client index file (Ok t0) :: l
         ++ (if task_done env (status t') then []
             else match more with
                  | Err e :: _ => [Sleep 30; TaskRetrieve t' (Err e)]
                  | _ => []
                  end)
       ∧ page r.2
         = page w ++ [match l with
                      | [] => Empty
                      | _ => Text ("Indexing Status: " +:+ status t')
                      end]
       ∧ r.1
         = (if task_done env (status t') then
              if String.eqb (status t') "ready" then Returned (video_id t')
              else Raised (RuntimeError
                     ("Video upload/indexing failed: "
                      +:+ "Indexing failed with status '" +:+ status t' +:+ "'"))
            else match more with
                 | Err e :: _ =>
                     Raised (RuntimeError
                       ("Video upload/indexing failed: " +:+ str e))
                 | _ => Blocked
                 end))
  ∧ (∀ l t' w0,
       polled env 30 t0 l t' →
       page (wait_for_done env (answers_of l) 30 (λ t, st_write (status t))
               t0 w0).2
       = page w0 ++ ((λ t, Text (status t)) <$> omap reported l)).
Proof.
  intros Hcreate. split; [apply polls_exist|]. split.
  - intros l t' more Hp Hanswers Hend. destruct w as [ss pg sp pc cl].
    run_unfold. rewrite Hcreate. run_unfold. rewrite Hanswers.
    rewrite (wait_for_done_replay _ _ _ _ _ _ _ _ Hp Hend). run_unfold.
    destruct (task_done env (status t')) eqn:Hdone.
    + destruct (String.eqb (status t') "ready"); run_unfold;
        rewrite <- ?app_assoc, ?app_nil_r; cbn [app];
        (split; [reflexivity|]); (split; [|reflexivity]);
        (destruct l; [reflexivity|apply list_insert_end]).
    + destruct Hend as [?|[->|(e & rest & ->)]]; [congruence| |]; run_unfold;
        rewrite <- ?app_assoc, ?app_nil_r; cbn [app];
        (split; [reflexivity|]); (split; [|reflexivity]);
        (destruct l; [reflexivity|apply list_insert_end]).
  - intros l t' w0 Hp. by rewrite (wait_for_done_calls_back _ _ _ _ _ _ Hp).
Qed.

Lemma initialised_lookup key m :
  initialised key m !! key = Some (default VNone (m !! key)).
Proof.
  unfold initialised. destruct (m !! key) as [v|] eqn:E; simpl.
  - exact E.
  - apply lookup_insert_eq.
Qed.

Lemma initialised_lookup_ne key key' m :
  key ≠ key' → initialised key m !! key' = m !! key'.
Proof.
  intros Hne. unfold initialised. destruct (m !! key); [reflexivity|].
  by apply lookup_insert_ne.
Qed.

(** Look a key up in the session state a run leaves. *)
Ltac session_lookup :=
  repeat first
    [ rewrite lookup_insert_eq
    | rewrite lookup_insert_ne by discriminate
    | rewrite initialised_lookup
    | rewrite initialised_lookup_ne by discriminate ].

(** C10. The two identifiers live in the session state, which outlives
    the run.  Once the index is created, [index_id] holds its identifier,
    whatever happens to the later stages.  Unless the run has seen its task
    finish in the state "ready", [video_id] keeps the value the previous
    run left ([None] if the session is new).  Both keys are present when
    the run ends. *)
Theorem session_identifiers_outlive_the_run env ui ss :
  (∀ c name mods addons idx,
     IndexCreate c name mods addons (Ok idx) ∈ calls (run env ui ss).2 →
     session_state (run env ui ss).2 !! "index_id" = Some (VStr (idx_id idx)))
  ∧ (¬ indexed env (calls (run env ui ss).2) →
     session_state (run env ui ss).2 !! "video_id"
     = Some (default VNone (ss !! "video_id")))
  ∧ is_Some (session_state (run env ui ss).2 !! "index_id")
  ∧ is_Some (session_state (run env ui ss).2 !! "video_id").
Proof.
  split; [|split; [|split]].
  - run_all; intros c name mods addons idx Hin; log_elem Hin; try discriminate.
    all: try (eapply polled_elem in Hin as [?|(? & ? & ?)]; [| |eassumption];
              discriminate).
    all: simplify_eq; by session_lookup.
  - unfold indexed. run_all; log_observed; intros Hno; session_lookup;
      try reflexivity.
    all: exfalso; apply Hno; eexists; split; [reflexivity|].
    all: split; [done|by apply String.eqb_eq].
  - run_all; session_lookup; eauto.
  - run_all; session_lookup; eauto.
Qed.

(** C7, as the specification states it, fails: nothing reads the
    credential when the script starts.  With no key in the secrets store
    the module-level code and a run without a click end normally and read
    no secret; the failure shows only in answer to a click on "Analyze",
    as an error box of that run. *)
Lemma credential_absence_is_not_a_startup_failure :
  secrets env_no_key !! "TWELVELABS_API_KEY" = None
  ∧ (module_setup (init_world ∅)).1 = Returned tt
  ∧ calls (module_setup (init_world ∅)).2 = []
  ∧ (run env_no_key ui_idle ∅).1 = Returned tt
  ∧ calls (run env_no_key ui_idle ∅).2 = []
  ∧ last (page (run env_no_key ui_idle ∅).2) = Some (Button "Analyze")
  ∧ (run env_no_key ui_analyze ∅).1 = Returned tt
  ∧ last (page (run env_no_key ui_analyze ∅).2)
    = Some (ErrorBox "Could not initialize 12Labs client. Check your API key setup in st.secrets.").
Proof. repeat split; vm_compute; reflexivity. Qed.

(** C7, amended.  The credential is read inside [main], exactly once per
    run that was triggered by a click on "Analyze" with a file in the
    uploader, and it is the first call of such a run; the module-level code
    and the other runs read no secret.  The client constructor is called at
    most once, right after the read and with the stored value.  A missing
    key, or a client constructor that raises, is a failure of that run:
    [main] shows the client error and returns, and the log of the run holds
    nothing but the read and, with a key, the constructor call. *)
Theorem credential_is_read_per_run env ui ss :
  calls (module_setup (init_world ss)).2 = []
  ∧ (analyze_clicked ui = false ∨ uploaded ui = None →
     calls (run env ui ss).2 = [])
  ∧ (∀ file,
       analyze_clicked ui = true → uploaded ui = Some file →
       head (calls (run env ui ss).2)
       = Some (SecretsGet "TWELVELABS_API_KEY"
                 (secrets env !! "TWELVELABS_API_KEY"))
       ∧ count_calls is_secrets_get (calls (run env ui ss).2) = 1%nat
       ∧ (secrets env !! "TWELVELABS_API_KEY" = None →
          calls (run env ui ss).2 = [SecretsGet "TWELVELABS_API_KEY" None])
       ∧ (∀ k, secrets env !! "TWELVELABS_API_KEY" = Some k →
               take 2 (calls (run env ui ss).2)
               = [SecretsGet "TWELVELABS_API_KEY" (Some k);
                  ClientInit k (client_init env k)]
               ∧ count_calls is_client_init (calls (run env ui ss).2) = 1%nat
               ∧ (∀ e, client_init env k = Some e →
                       calls (run env ui ss).2
                       = [SecretsGet "TWELVELABS_API_KEY" (Some k);
                          ClientInit k (Some e)]))
       ∧ (secrets env !! "TWELVELABS_API_KEY" = None
          ∨ (∃ k e, secrets env !! "TWELVELABS_API_KEY" = Some k
                    ∧ client_init env k = Some e) →
          (run env ui ss).1 = Returned tt
          ∧ last (page (run env ui ss).2)
            = Some (ErrorBox "Could not initialize 12Labs client. Check your API key setup in st.secrets.")
          ∧ Forall (λ c, is_index_create c = false ∧ is_task_create c = false
                         ∧ is_generate c = false)
              (calls (run env ui ss).2))).
Proof.
  split; [reflexivity|split].
  - run_all; intros [?|?]; congruence.
  - intros file. run_all; intros Hclick Hfile; try congruence.
    all: split; [reflexivity|].
    all: split;
      [ unfold count_calls; cbn [List.filter is_secrets_get];
        rewrite ?List.filter_app;
        try (erewrite polled_filter
               by (eassumption || reflexivity || (intros; reflexivity)));
        reflexivity |].
    all: split; [intros; by simplify_eq|].
    all: split;
      [ intros k Hk; simplify_eq;
        ( try match goal with H : client_init _ _ = _ |- _ => rewrite H end;
          split; [reflexivity|split];
          [ unfold count_calls; cbn [List.filter is_client_init];
            rewrite ?List.filter_app;
            try (erewrite polled_filter
                   by (eassumption || reflexivity || (intros; reflexivity)));
            reflexivity
          | intros e' He'; by simplify_eq ] ) |].
    all: intros [?|(k & e' & ? & ?)]; simplify_eq.
    all: repeat split; log_forall.
Qed.

(** C8, as the specification states it, fails: two runs whose clocks
    differ by less than a second ask for an index of the same name. *)
Lemma same_second_runs_share_the_index_name :
  ¬ (now env_ready == now env_ready_later)%Q
  ∧ ∃ name r1 r2,
      IndexCreate {| api_key := "key" |} name models ["thumbnail"] r1
        ∈ calls (run env_ready ui_analyze ∅).2
      ∧ IndexCreate {| api_key := "key" |} name models ["thumbnail"] r2
        ∈ calls (run env_ready_later ui_analyze ∅).2.
Proof.
  split; [by vm_compute|].
  exists "my_product_index_1700000000".
  eexists _, _. split; vm_compute; do 3 apply list_elem_of_further;
    apply list_elem_of_here.
Qed.

Lemma index_name_of_inj t1 t2 :
  index_name_of t1 = index_name_of t2 ↔ int t1 = int t2.
Proof.
  unfold index_name_of. split; [|by intros ->].
  intros H. apply (inj (String.app _)) in H. by apply (inj pretty) in H.
Qed.

(** C8, amended.  A run never reuses an index.  Whatever the session
    state holds, a run that has its client asks the service exactly once
    for a new index, and the name of every index a run asks for is
    "my_product_index_" followed by the clock of that run in whole seconds.
    The task of a run is submitted to the index that this run has created,
    which is also the one the run leaves in [index_id]; what an earlier run
    left in the session state has no part in the calls, the outcome or the
    page of the run.  The names of two runs differ exactly when their
    clocks differ in whole seconds. *)
Theorem index_is_created_afresh env ui ss :
  (∀ c name mods addons r,
     IndexCreate c name mods addons r ∈ calls (run env ui ss).2 →
     name = index_name_of (now env))
  ∧ (∀ file k,
       analyze_clicked ui = true → uploaded ui = Some file →
       secrets env !! "TWELVELABS_API_KEY" = Some k →
       client_init env k = None →
       (∃ r, IndexCreate {| api_key := k |} (index_name_of (now env)) models
               ["thumbnail"] r ∈ calls (run env ui ss).2)
       ∧ count_calls is_index_create (calls (run env ui ss).2) = 1%nat)
  ∧ (∀ c index file r,
       TaskCreate c index file r ∈ calls (run env ui ss).2 →
       session_state (run env ui ss).2 !! "index_id" = Some (VStr index)
       ∧ ∃ name mods addons idx,
           index = idx_id idx
           ∧ IndexCreate c name mods addons (Ok idx) ∈ calls (run env ui ss).2)
  ∧ (∀ ss',
       (run env ui ss').1 = (run env ui ss).1
       ∧ calls (run env ui ss').2 = calls (run env ui ss).2
       ∧ page (run env ui ss').2 = page (run env ui ss).2)
  ∧ (∀ env', index_name_of (now env) = index_name_of (now env')
             ↔ int (now env) = int (now env')).
Proof.
  split; [|split; [|split; [|split]]].
  - run_all; intros c name mods addons r Hin; log_elem Hin; try discriminate.
    all: try (eapply polled_elem in Hin as [?|(? & ? & ?)]; [| |eassumption];
              discriminate).
    all: by simplify_eq.
  - intros file k. run_all; intros; simplify_eq.
    all: split;
      [ eexists; do 3 apply list_elem_of_further; apply list_elem_of_here
      | unfold count_calls; cbn [List.filter is_index_create];
        rewrite ?List.filter_app;
        try (erewrite polled_filter
               by (eassumption || reflexivity || (intros; reflexivity)));
        reflexivity ].
  - run_all; intros c index file r Hin; log_elem Hin; try discriminate.
    all: try (eapply polled_elem in Hin as [?|(? & ? & ?)]; [| |eassumption];
              discriminate).
    all: simplify_eq; split; [by session_lookup|].
    all: eexists _, _, _, _; split; [reflexivity|].
    all: do 3 apply list_elem_of_further; apply list_elem_of_here.
  - intros ss'. run_all_eq; repeat split.
  - intros env'. apply index_name_of_inj.
Qed.

(** ** The claims on sample runs *)

Lemma failed_indexing_skips_generation_witness :
  observed (calls (run env_failed ui_analyze ∅).2) = Some (sample_task "failed")
  ∧ task_done env_failed (status (sample_task "failed")) = true
  ∧ status (sample_task "failed") ≠ "ready"
  ∧ Forall (λ c, is_generate c = false) (calls (run env_failed ui_analyze ∅).2)
  ∧ (run env_failed ui_analyze ∅).1 = Returned tt
  ∧ last (page (run env_failed ui_analyze ∅).2)
    = Some (ErrorBox (oops (RuntimeError
        "Video upload/indexing failed: Indexing failed with status 'failed'"))).
Proof.
  assert (H1 : observed (calls (run env_failed ui_analyze ∅).2)
               = Some (sample_task "failed")) by (vm_compute; reflexivity).
  assert (H2 : task_done env_failed (status (sample_task "failed")) = true)
    by reflexivity.
  assert (H3 : status (sample_task "failed") ≠ "ready") by discriminate.
  exact (conj H1 (conj H2 (conj H3
    (failed_indexing_skips_generation env_failed ui_analyze ∅ _ H1 H2 H3)))).
Defined.

Lemma calls_follow_the_stages_witness :
  ∃ t, observed (removelast (calls (run env_ready ui_analyze ∅).2)) = Some t
       ∧ task_done env_ready (status t) = true
       ∧ status t = "ready"
       ∧ video_id t = "video-1".
Proof.
  destruct (proj1 (calls_follow_the_stages env_ready ui_analyze ∅)
              (removelast (calls (run env_ready ui_analyze ∅).2))
              {| api_key := "key" |} "video-1" "Where would a soda can fit?"
              0.7%float (Ok {| gen_id := "gen-1"; data := "insights" |}) [])
    as (t & Hobs & Hdone & Hready & Hvideo & _).
  - vm_compute. reflexivity.
  - exists t. auto.
Defined.

Lemma failed_index_creation_ends_the_run_witness :
  last (calls (run env_no_index ui_analyze ∅).2)
  = Some (IndexCreate {| api_key := "key" |} "my_product_index_1700000000"
            models ["thumbnail"] (Err (Exn ClsException "quota exceeded")))
  ∧ Forall (λ c, is_task_create c = false ∧ is_generate c = false)
      (calls (run env_no_index ui_analyze ∅).2)
  ∧ last (page (run env_no_index ui_analyze ∅).2)
    = Some (ErrorBox (oops (RuntimeError
        "Failed to create index: quota exceeded"))).
Proof.
  destruct (failed_index_creation_ends_the_run env_no_index ui_analyze ∅
              {| api_key := "key" |} "my_product_index_1700000000"
              models ["thumbnail"] (Exn ClsException "quota exceeded"))
    as (Hnone & Hlast & _ & Hpage).
  - vm_compute. do 3 apply list_elem_of_further. apply list_elem_of_here.
  - auto.
Defined.

Lemma missing_file_makes_no_call_witness :
  uploaded ui_no_file = None
  ∧ calls (run env_ready ui_no_file ∅).2 = []
  ∧ last (page (run env_ready ui_no_file ∅).2)
    = Some (ErrorBox "No video file provided. Please upload a valid file.").
Proof.
  destruct (missing_file_makes_no_call env_ready ui_no_file ∅ eq_refl)
    as (Hcalls & _ & Hpage).
  split; [reflexivity|]. split; [exact Hcalls|]. exact (Hpage eq_refl).
Defined.

Lemma stage_errors_are_wrapped_witness :
  exn_cls (RuntimeError "Failed to create index: quota exceeded") = ClsRuntimeError
  ∧ ∃ m, str (RuntimeError "Failed to create index: quota exceeded")
         = "Failed to create index: " +:+ m.
Proof.
  destruct (proj1 (stage_errors_are_wrapped env_no_index {| api_key := "key" |})
              "my_product_index_1700000000" (init_world ∅))
    as (l & _ & _ & Hraised).
  exact (Hraised (RuntimeError "Failed to create index: quota exceeded") eq_refl).
Defined.

Lemma generation_uses_temperature_07_witness :
  generate_text env_ready {| api_key := "key" |} "video-1" "prompt" 0.7%float
  = Ok {| gen_id := "gen-1"; data := "insights" |}
  ∧ (generate_text_from_video env_ready {| api_key := "key" |} "video-1"
       "prompt" (init_world ∅)).1 = Returned "insights".
Proof.
  split; [reflexivity|].
  exact (proj2 (proj1 (generation_uses_temperature_07 env_ready)
                  {| api_key := "key" |} "video-1" "prompt" (init_world ∅))
           {| gen_id := "gen-1"; data := "insights" |} eq_refl).
Defined.

Lemma credential_is_read_per_run_witness :
  analyze_clicked ui_analyze = true
  ∧ uploaded ui_analyze = Some sample_file
  ∧ secrets env_no_key !! "TWELVELABS_API_KEY" = None
  ∧ count_calls is_secrets_get (calls (run env_no_key ui_analyze ∅).2) = 1%nat
  ∧ calls (run env_no_key ui_analyze ∅).2
    = [SecretsGet "TWELVELABS_API_KEY" None]
  ∧ last (page (run env_no_key ui_analyze ∅).2)
    = Some (ErrorBox "Could not initialize 12Labs client. Check your API key setup in st.secrets.").
Proof.
  destruct (proj2 (proj2 (credential_is_read_per_run env_no_key ui_analyze ∅))
              sample_file eq_refl eq_refl)
    as (_ & Hcount & Hlog & _ & Hfail).
  destruct (Hfail (or_introl eq_refl)) as (_ & Hpage & _).
  do 3 (split; [reflexivity|]). split; [exact Hcount|].
  split; [exact (Hlog eq_refl)|exact Hpage].
Defined.

Lemma index_is_created_afresh_witness :
  analyze_clicked ui_analyze = true
  ∧ uploaded ui_analyze = Some sample_file
  ∧ secrets env_ready !! "TWELVELABS_API_KEY" = Some "key"
  ∧ client_init env_ready "key" = None
  ∧ (∃ r, IndexCreate {| api_key := "key" |} (index_name_of (now env_ready))
            models ["thumbnail"] r
          ∈ calls (run env_ready ui_analyze sample_session).2)
  ∧ count_calls is_index_create
      (calls (run env_ready ui_analyze sample_session).2) = 1%nat
  ∧ session_state (run env_ready ui_analyze sample_session).2 !! "index_id"
    = Some (VStr "index-1").
Proof.
  destruct (index_is_created_afresh env_ready ui_analyze sample_session)
    as (_ & Hfresh & Htask & _).
  destruct (Hfresh sample_file "key" eq_refl eq_refl eq_refl eq_refl)
    as (Hcreate & Hcount).
  destruct (Htask {| api_key := "key" |} "index-1" sample_file
              (Ok (sample_task "pending"))) as (Hindex & _).
  { vm_compute. do 4 apply list_elem_of_further. apply list_elem_of_here. }
  do 4 (split; [reflexivity|]). split; [exact Hcreate|].
  split; [exact Hcount|exact Hindex].
Defined.

Lemma indexing_wait_polls_every_30_witness :
  task_create env_ready {| api_key := "key" |} "index-1" sample_file
  = Ok (sample_task "pending")
  ∧ calls (upload_video_and_wait env_ready {| api_key := "key" |} "index-1"
             sample_file (init_world ∅)).2
    = [ TaskCreate {| api_key := "key" |} "index-1" sample_file
          (Ok (sample_task "pending"));
        Sleep 30;
        TaskRetrieve (sample_task "pending") (Ok (sample_task "indexing"));
        Sleep 30;
        TaskRetrieve (sample_task "indexing") (Ok (sample_task "ready")) ]
  ∧ page (upload_video_and_wait env_ready {| api_key := "key" |} "index-1"
            sample_file (init_world ∅)).2
    = [Text "Indexing Status: ready"]
  ∧ (upload_video_and_wait env_ready {| api_key := "key" |} "index-1"
       sample_file (init_world ∅)).1
    = Returned "video-1".
Proof.
  split; [reflexivity|].
  refine (proj1 (proj2 (indexing_wait_polls_every_30 env_ready
            {| api_key := "key" |} "index-1" sample_file (init_world ∅)
            (sample_task "pending") eq_refl))
          [ Sleep 30;
            TaskRetrieve (sample_task "pending") (Ok (sample_task "indexing"));
            Sleep 30;
            TaskRetrieve (sample_task "indexing") (Ok (sample_task "ready")) ]
          (sample_task "ready") [] _ eq_refl _).
  - repeat constructor.
  - by left.
Defined.

Lemma session_identifiers_outlive_the_run_witness :
  ¬ indexed env_failed (calls (run env_failed ui_analyze sample_session).2)
  ∧ session_state (run env_failed ui_analyze sample_session).2 !! "index_id"
    = Some (VStr "index-1")
  ∧ session_state (run env_failed ui_analyze sample_session).2 !! "video_id"
    = Some (VStr "video-0").
Proof.
  assert (Hno : ¬ indexed env_failed
                    (calls (run env_failed ui_analyze sample_session).2)).
  { intros (t & Hobs & _ & Hready). vm_compute in Hobs.
    injection Hobs as <-. discriminate Hready. }
  destruct (session_identifiers_outlive_the_run env_failed ui_analyze
              sample_session) as (Hindex & Hvideo & _).
  split; [exact Hno|]. split.
  - apply (Hindex {| api_key := "key" |} "my_product_index_1700000000" models
             ["thumbnail"] {| idx_id := "index-1";
                              idx_name := "my_product_index_1700000000" |}).
    vm_compute. do 3 apply list_elem_of_further. apply list_elem_of_here.
  - exact (Hvideo Hno).
Defined.

(** ** Further properties of the script *)

(** X1. [main] lets no exception escape.  A run either returns, and then
    no spinner is left on the page, or it never leaves the wait for the
    task: the spinner of the upload stage is still up and the latest state
    the run has seen of its task is not terminal. *)
Theorem run_never_raises env ui ss :
  ((run env ui ss).1 = Returned tt ∧ spinner (run env ui ss).2 = None)
  ∨ ((run env ui ss).1 = Blocked
     ∧ spinner (run env ui ss).2
       = Some "Uploading and indexing your video. Please wait..."
     ∧ ∃ t, observed (calls (run env ui ss).2) = Some t
            ∧ task_done env (status t) = false).
Proof.
  run_all; log_observed; eauto 10.
Qed.

(** X2. [create_twelvelabs_client] reads the key "TWELVELABS_API_KEY" and
    nothing else.  Without the key it raises before the constructor is
    called; with the key it calls the constructor once, with the stored
    value, and returns the client built from it, or raises what the
    constructor raised, unwrapped. *)
Theorem client_is_built_from_the_stored_key env w :
  let r := create_twelvelabs_client env w in
  match secrets env !! "TWELVELABS_API_KEY" with
  | None =>
      calls r.2 = calls w ++ [SecretsGet "TWELVELABS_API_KEY" None]
      ∧ ∃ e, r.1 = Raised e ∧ isinstance e ClsRuntimeError = false
  | Some k =>
      calls r.2 = calls w ++ [SecretsGet "TWELVELABS_API_KEY" (Some k);
                              ClientInit k (client_init env k)]
      ∧ r.1 = match client_init env k with
              | None => Returned {| api_key := k |}
              | Some e => Raised e
              end
  end.
Proof.
  destruct w as [ss pg sp pc cl]. run_all; rewrite <- ?app_assoc; eauto 10.
Qed.

(** X3. The helper functions never write the session state, and they
    leave the spinner and the page configuration as they found them: the
    two identifiers are written by [main] alone.  Of the helpers only the
    upload stage touches the page. *)
Theorem helpers_leave_the_session_alone env client w :
  (session_state (create_twelvelabs_client env w).2 = session_state w
   ∧ spinner (create_twelvelabs_client env w).2 = spinner w
   ∧ page (create_twelvelabs_client env w).2 = page w)
  ∧ (∀ name,
       session_state (create_index env client name w).2 = session_state w
       ∧ spinner (create_index env client name w).2 = spinner w
       ∧ page (create_index env client name w).2 = page w)
  ∧ (∀ index file,
       session_state (upload_video_and_wait env client index file w).2
       = session_state w
       ∧ spinner (upload_video_and_wait env client index file w).2 = spinner w
       ∧ page_config (upload_video_and_wait env client index file w).2
         = page_config w)
  ∧ (∀ video prompt,
       session_state (generate_text_from_video env client video prompt w).2
       = session_state w
       ∧ spinner (generate_text_from_video env client video prompt w).2
         = spinner w
       ∧ page (generate_text_from_video env client video prompt w).2 = page w).
Proof.
  destruct w as [ss pg sp pc cl].
  split; [|split; [|split]]; intros; run_all; auto.
Qed.

(** X4. The stages follow each other without a gap.  A created index is
    followed by the submission of the uploaded file to that index, and a
    task seen terminal and "ready" is followed by a generation request for
    its video with the prompt of the text area, after [video_id] of the
    session has been set to that video. *)
Theorem stages_make_progress env ui ss :
  (∀ c name mods addons idx,
     IndexCreate c name mods addons (Ok idx) ∈ calls (run env ui ss).2 →
     ∃ file r, uploaded ui = Some file
               ∧ TaskCreate c (idx_id idx) file r ∈ calls (run env ui ss).2)
  ∧ (∀ t,
       observed (calls (run env ui ss).2) = Some t →
       task_done env (status t) = true →
       status t = "ready" →
       session_state (run env ui ss).2 !! "video_id" = Some (VStr (video_id t))
       ∧ ∃ c r, last (calls (run env ui ss).2)
                = Some (GenerateText c (video_id t) (prompt_text ui) 0.7%float r)).
Proof.
  split.
  - run_all; intros c name mods addons idx Hin; log_elem Hin; try discriminate.
    all: try (eapply polled_elem in Hin as [?|(? & ? & ?)]; [| |eassumption];
              discriminate).
    all: simplify_eq; eexists _, _; split; [reflexivity|].
    all: do 4 apply list_elem_of_further; apply list_elem_of_here.
  - run_all; log_observed; intros t' Hobs Hdone Hready; simplify_eq;
      try congruence.
    all: try (apply String.eqb_neq in Heqb0; congruence).
    all: split; [by session_lookup|]; eexists _, _.
    all: rewrite ?app_comm_cons; apply last_snoc.
Qed.

(** X5. A successful generation is what the page ends with: after the
    two success boxes come the heading and the [data] of the answer, the
    run returns, and the page holds no error box. *)
Theorem successful_generation_is_shown env ui ss c video prompt temp res :
  GenerateText c video prompt temp (Ok res) ∈ calls (run env ui ss).2 →
  (run env ui ss).1 = Returned tt
  ∧ (∃ before,
       page (run env ui ss).2
       = before ++ [ SuccessBox "Video indexing completed successfully!";
                     SuccessBox "Text generation successful!";
                     Text "## Product placement insights";
                     Text (data res) ])
  ∧ Forall (λ e, is_error_box e = false) (page (run env ui ss).2).
Proof.
  run_all; intros Hin; log_elem Hin; try discriminate.
  all: try (eapply polled_elem in Hin as [?|(? & ? & ?)]; [| |eassumption];
            discriminate).
  simplify_eq. split; [reflexivity|]. rewrite <- !app_assoc. split; [eauto|].
  destruct l; cbn; repeat constructor.
Qed.

(** X6. When the generation request fails, it was the last call of the
    run; the page ends with the wrapped error of the generation stage,
    [main] returns, and the session keeps the video of this run: the
    indexing is not undone. *)
Theorem failed_generation_keeps_the_video env ui ss c video prompt temp e :
  GenerateText c video prompt temp (Err e) ∈ calls (run env ui ss).2 →
  (run env ui ss).1 = Returned tt
  ∧ last (calls (run env ui ss).2) = Some (GenerateText c video prompt temp (Err e))
  ∧ last (page (run env ui ss).2)
    = Some (ErrorBox (oops (RuntimeError ("Text generation failed: " +:+ str e))))
  ∧ session_state (run env ui ss).2 !! "video_id" = Some (VStr video).
Proof.
  run_all; intros Hin; log_elem Hin; try discriminate.
  all: try (eapply polled_elem in Hin as [?|(? & ? & ?)]; [| |eassumption];
            discriminate).
  simplify_eq. split; [reflexivity|]. split.
  { rewrite ?app_comm_cons. apply last_snoc. }
  split; [apply last_snoc|by session_lookup].
Qed.

(** X7. When the submission of the file fails, it was the last call of
    the run: nothing is polled and no placeholder is put on the page.  The
    page ends with the wrapped error of the upload stage, and the session
    holds the index of this run but not a new video. *)
Theorem failed_submission_ends_the_run env ui ss c index file e :
  TaskCreate c index file (Err e) ∈ calls (run env ui ss).2 →
  (run env ui ss).1 = Returned tt
  ∧ last (calls (run env ui ss).2) = Some (TaskCreate c index file (Err e))
  ∧ Forall (λ x, is_placeholder x = false) (page (run env ui ss).2)
  ∧ last (page (run env ui ss).2)
    = Some (ErrorBox (oops (RuntimeError
              ("Video upload/indexing failed: " +:+ str e))))
  ∧ session_state (run env ui ss).2 !! "index_id" = Some (VStr index)
  ∧ session_state (run env ui ss).2 !! "video_id"
    = Some (default VNone (ss !! "video_id")).
Proof.
  run_all; intros Hin; log_elem Hin; try discriminate.
  all: try (eapply polled_elem in Hin as [?|(? & ? & ?)]; [| |eassumption];
            discriminate).
  simplify_eq. repeat split; try (by session_lookup).
  repeat constructor.
Qed.

(** X8. When a poll of the task fails, it was the last call of the run
    and it came one pause of 30 after the previous call; the task was not
    terminal, no generation is requested, and the page ends with the
    wrapped error of the upload stage. *)
Theorem failed_poll_ends_the_run env ui ss t e :
  TaskRetrieve t (Err e) ∈ calls (run env ui ss).2 →
  (run env ui ss).1 = Returned tt
  ∧ (∃ before, calls (run env ui ss).2
               = before ++ [Sleep 30; TaskRetrieve t (Err e)])
  ∧ task_done env (status t) = false
  ∧ Forall (λ c, is_generate c = false) (calls (run env ui ss).2)
  ∧ last (page (run env ui ss).2)
    = Some (ErrorBox (oops (RuntimeError
              ("Video upload/indexing failed: " +:+ str e)))).
Proof.
  run_all; intros Hin; log_elem Hin; try discriminate.
  all: try (eapply polled_elem in Hin as [?|(? & ? & ?)]; [| |eassumption];
            discriminate).
  simplify_eq. split; [reflexivity|]. split.
  { eexists (_ :: _ :: _ :: _ :: _ :: _). reflexivity. }
  split; [assumption|]. split; [log_forall|apply last_snoc].
Qed.

(** Count the calls of one kind in the log of a run. *)
Ltac log_count :=
  unfold count_calls;
  cbn [List.filter is_secrets_get is_index_create is_task_create is_generate];
  rewrite ?List.filter_app;
  try (erewrite polled_filter by (eassumption || reflexivity || (intros; reflexivity)));
  cbn [List.filter is_secrets_get is_index_create is_task_create is_generate
       length app];
  lia.

(** X9. Nothing is retried.  In the log of a run the secret is read at
    most once, and each of the three operations of the service (index
    creation, task submission, text generation) is called at most once;
    only the polls of the task repeat. *)
Theorem no_call_is_repeated env ui ss :
  (count_calls is_secrets_get (calls (run env ui ss).2) ≤ 1)%nat
  ∧ (count_calls is_index_create (calls (run env ui ss).2) ≤ 1)%nat
  ∧ (count_calls is_task_create (calls (run env ui ss).2) ≤ 1)%nat
  ∧ (count_calls is_generate (calls (run env ui ss).2) ≤ 1)%nat.
Proof.
  split; [|split; [|split]]; run_all; log_count.
Qed.

(** X10. Every call into the service is made with the client built from
    the stored key and with the inputs of the run: the index is asked for
    with the two models and the thumbnail addon, the task is submitted with
    the uploaded file, and the generation is asked for with the prompt of
    the text area. *)
Theorem calls_carry_the_run_inputs env ui ss :
  Forall (carries_run_inputs env ui) (calls (run env ui ss).2).
Proof.
  run_all.
  all: repeat first
    [ exact (List.Forall_nil _)
    | apply List.Forall_cons; [cbn; by auto|]
    | apply Forall_app; split
    | eapply polled_Forall; [| |eassumption]; [exact I|intros; exact I] ].
Qed.

Lemma initialised_present key (m : gmap string value) :
  is_Some (m !! key) → initialised key m = m.
Proof. intros [v Hv]. unfold initialised. by rewrite Hv. Qed.

Lemma run_keeps_both_keys env ui ss :
  is_Some (session_state (run env ui ss).2 !! "index_id")
  ∧ is_Some (session_state (run env ui ss).2 !! "video_id").
Proof. split; run_all; session_lookup; eauto. Qed.

(** X11. A run of the script that no click on "Analyze" triggered renders
    the five elements of the form and does nothing else: it makes no call
    and returns.  It adds the two keys to a new session state, and it
    leaves the state that an earlier run has left exactly as it is. *)
Theorem idle_run_changes_nothing env ui ss :
  analyze_clicked ui = false →
  (run env ui ss).1 = Returned tt
  ∧ calls (run env ui ss).2 = []
  ∧ page (run env ui ss).2 = page_head
  ∧ session_state (run env ui ss).2
    = initialised "video_id" (initialised "index_id" ss)
  ∧ (∀ env0 ui0 ss0,
       ss = session_state (run env0 ui0 ss0).2 →
       session_state (run env ui ss).2 = ss).
Proof.
  intros Hidle.
  assert (Hstate : session_state (run env ui ss).2
                   = initialised "video_id" (initialised "index_id" ss)).
  { run_all; congruence. }
  do 3 (split; [run_all; congruence || reflexivity|]).
  split; [exact Hstate|].
  intros env0 ui0 ss0 ->. rewrite Hstate.
  destruct (run_keeps_both_keys env0 ui0 ss0) as [Hindex Hvideo].
  rewrite (initialised_present "index_id") by exact Hindex.
  by apply initialised_present.
Qed.

(** X12. A run writes no key of the session state other than "index_id"
    and "video_id". *)
Theorem other_session_keys_are_kept env ui ss key :
  key ≠ "index_id" → key ≠ "video_id" →
  session_state (run env ui ss).2 !! key = ss !! key.
Proof.
  intros Hindex Hvideo. run_all.
  all: rewrite ?lookup_insert_ne by done.
  all: by rewrite !initialised_lookup_ne by done.
Qed.

(** X13. An error box ends the page: every handler of [main] returns
    after it has shown its error, so no element of the page but the last
    is an error box, and a page shows at most one. *)
Theorem error_box_ends_the_page env ui ss :
  Forall (λ e, is_error_box e = false) (removelast (page (run env ui ss).2)).
Proof.
  run_all; rewrite ?removelast_last; cbn [removelast].
  all: repeat first
    [ exact (List.Forall_nil _)
    | apply List.Forall_cons; [reflexivity|]
    | apply Forall_app; split
    | match goal with |- context [match ?l with [] => _ | _ => _ end] =>
        destruct l; cbn [insert list_insert length]
      end ].
Qed.

(** Open the placeholder of the page: it is empty, or a poll has filled it. *)
Ltac page_cases :=
  repeat match goal with
  | |- context [match ?l with [] => _ | _ :: _ => _ end] =>
      destruct l; cbn [insert list_insert length]
  | H : context [match ?l with [] => _ | _ :: _ => _ end] |- _ =>
      destruct l; cbn [insert list_insert length] in H
  end.

(** X14. Every run starts its page with the five elements of the form,
    whatever happens later.  Once the index is created the next element is
    the success box that names the index as the service returned it. *)
Theorem page_starts_with_the_form env ui ss :
  take 5 (page (run env ui ss).2) = page_head
  ∧ (∀ c name mods addons idx,
       IndexCreate c name mods addons (Ok idx) ∈ calls (run env ui ss).2 →
       page (run env ui ss).2 !! 5%nat
       = Some (SuccessBox ("Index created: " +:+ idx_name idx
                           +:+ " (ID: " +:+ idx_id idx +:+ ")"))).
Proof.
  split.
  - run_all; page_cases; reflexivity.
  - run_all; intros c name mods addons idx Hin; log_elem Hin; try discriminate.
    all: try (eapply polled_elem in Hin as [?|(? & ? & ?)]; [| |eassumption];
              discriminate).
    all: simplify_eq; page_cases; reflexivity.
Qed.

(** X15. The page of a run shows errors of five kinds only: the missing
    file, the client that could not be built (without the cause), and the
    "Oops" message with the wrapped error of one of the three stages. *)
Theorem error_boxes_name_their_stage env ui ss body :
  ErrorBox body ∈ page (run env ui ss).2 →
  body = "No video file provided. Please upload a valid file."
  ∨ body = "Could not initialize 12Labs client. Check your API key setup in st.secrets."
  ∨ ∃ detail,
      (body = oops (RuntimeError ("Failed to create index: " +:+ detail))
       ∨ body = oops (RuntimeError ("Video upload/indexing failed: " +:+ detail))
       ∨ body = oops (RuntimeError ("Text generation failed: " +:+ detail))).
Proof.
  run_all; intros Hin; page_cases; log_elem Hin; simplify_eq.
  all: first
    [ left; reflexivity
    | right; left; reflexivity
    | right; right; eexists;
      first [ left; reflexivity
            | right; left; reflexivity
            | right; right; reflexivity ] ].
Qed.

Lemma int_floor_step (t1 t2 : Q) :
  (0 <= t1)%Q → (t1 + 1 <= t2)%Q → int t1 + 1 ≤ int t2.
Proof.
  destruct t1 as [n1 d1], t2 as [n2 d2]. unfold int, Qle, Qplus. cbn.
  intros H0 H12.
  assert (Hn1 : 0 ≤ n1) by lia.
  assert (Hn2 : 0 ≤ n2) by nia.
  rewrite !Z.quot_div_nonneg by lia.
  apply Z.div_le_lower_bound; [lia|].
  pose proof (Z.mul_div_le n1 (Z.pos d1) ltac:(lia)) as Hq.
  nia.
Qed.

(** X16. Index names of runs at least a second apart never collide: when
    the clock of a run (seconds since the epoch, not negative) is a second
    or more behind the clock of another run, the two runs ask for indexes
    of different names. *)
Theorem runs_a_second_apart_get_distinct_names env1 env2 ui1 ui2 ss1 ss2
    c1 c2 name1 name2 mods1 mods2 addons1 addons2 r1 r2 :
  (0 <= now env1)%Q →
  (now env1 + 1 <= now env2)%Q →
  IndexCreate c1 name1 mods1 addons1 r1 ∈ calls (run env1 ui1 ss1).2 →
  IndexCreate c2 name2 mods2 addons2 r2 ∈ calls (run env2 ui2 ss2).2 →
  name1 ≠ name2.
Proof.
  intros H0 Hlater Hin1 Hin2.
  assert (Hname : ∀ env ui ss c name mods addons r,
            IndexCreate c name mods addons r ∈ calls (run env ui ss).2 →
            name = "my_product_index_" +:+ pretty (int (now env))).
  { clear. intros env ui ss. run_all; intros c name mods addons r Hin;
      log_elem Hin; try discriminate.
    all: try (eapply polled_elem in Hin as [?|(? & ? & ?)]; [| |eassumption];
              discriminate).
    all: by simplify_eq. }
  rewrite (Hname _ _ _ _ _ _ _ _ Hin1), (Hname _ _ _ _ _ _ _ _ Hin2).
  intros Heq. apply (inj (String.app _)) in Heq. apply (inj pretty) in Heq.
  pose proof (int_floor_step _ _ H0 Hlater). lia.
Qed.

(** ** The further properties on sample runs *)

(** Find a call in the log of a sample run. *)
Ltac log_here :=
  vm_compute; repeat first [apply list_elem_of_here | apply list_elem_of_further].

Lemma stages_make_progress_witness :
  ∃ file r, uploaded ui_analyze = Some file
            ∧ TaskCreate {| api_key := "key" |} "index-1" file r
              ∈ calls (run env_ready ui_analyze ∅).2.
Proof.
  apply (proj1 (stages_make_progress env_ready ui_analyze ∅)
           {| api_key := "key" |} "my_product_index_1700000000" models
           ["thumbnail"]
           {| idx_id := "index-1"; idx_name := "my_product_index_1700000000" |}).
  log_here.
Defined.

Lemma successful_generation_is_shown_witness :
  (run env_ready ui_analyze ∅).1 = Returned tt
  ∧ (∃ before,
       page (run env_ready ui_analyze ∅).2
       = before ++ [ SuccessBox "Video indexing completed successfully!";
                     SuccessBox "Text generation successful!";
                     Text "## Product placement insights";
                     Text "insights" ])
  ∧ Forall (λ e, is_error_box e = false) (page (run env_ready ui_analyze ∅).2).
Proof.
  apply (successful_generation_is_shown env_ready ui_analyze ∅
           {| api_key := "key" |} "video-1" "Where would a soda can fit?"
           0.7%float {| gen_id := "gen-1"; data := "insights" |}).
  log_here.
Defined.

Lemma failed_generation_keeps_the_video_witness :
  last (page (run env_no_text ui_analyze sample_session).2)
  = Some (ErrorBox (oops (RuntimeError "Text generation failed: rate limited")))
  ∧ session_state (run env_no_text ui_analyze sample_session).2 !! "video_id"
    = Some (VStr "video-1").
Proof.
  destruct (failed_generation_keeps_the_video env_no_text ui_analyze
              sample_session {| api_key := "key" |} "video-1"
              "Where would a soda can fit?" 0.7%float
              (Exn ClsException "rate limited"))
    as (_ & _ & Hpage & Hvideo).
  - log_here.
  - split; [exact Hpage|exact Hvideo].
Defined.

Lemma failed_submission_ends_the_run_witness :
  Forall (λ x, is_placeholder x = false)
    (page (run env_no_task ui_analyze sample_session).2)
  ∧ last (page (run env_no_task ui_analyze sample_session).2)
    = Some (ErrorBox (oops (RuntimeError
              "Video upload/indexing failed: file too large")))
  ∧ session_state (run env_no_task ui_analyze sample_session).2 !! "index_id"
    = Some (VStr "index-1")
  ∧ session_state (run env_no_task ui_analyze sample_session).2 !! "video_id"
    = Some (VStr "video-0").
Proof.
  destruct (failed_submission_ends_the_run env_no_task ui_analyze
              sample_session {| api_key := "key" |} "index-1" sample_file
              (Exn ClsException "file too large"))
    as (_ & _ & Hslot & Hpage & Hindex & Hvideo).
  - log_here.
  - split; [exact Hslot|]. split; [exact Hpage|]. split; [exact Hindex|].
    exact Hvideo.
Defined.

Lemma failed_poll_ends_the_run_witness :
  task_done env_poll_error (status (sample_task "indexing")) = false
  ∧ last (page (run env_poll_error ui_analyze ∅).2)
    = Some (ErrorBox (oops (RuntimeError
              "Video upload/indexing failed: connection reset"))).
Proof.
  destruct (failed_poll_ends_the_run env_poll_error ui_analyze ∅
              (sample_task "indexing") (Exn ClsException "connection reset"))
    as (_ & _ & Hdone & _ & Hpage).
  - log_here.
  - split; [exact Hdone|exact Hpage].
Defined.

Lemma idle_run_changes_nothing_witness :
  analyze_clicked ui_idle = false
  ∧ page (run env_ready ui_idle (session_state (run env_failed ui_analyze ∅).2)).2
    = page_head
  ∧ session_state
      (run env_ready ui_idle (session_state (run env_failed ui_analyze ∅).2)).2
    = session_state (run env_failed ui_analyze ∅).2.
Proof.
  destruct (idle_run_changes_nothing env_ready ui_idle
              (session_state (run env_failed ui_analyze ∅).2) eq_refl)
    as (_ & _ & Hpage & _ & Hkept).
  split; [reflexivity|]. split; [exact Hpage|].
  exact (Hkept env_failed ui_analyze ∅ eq_refl).
Defined.

Lemma other_session_keys_are_kept_witness :
  session_state (run env_ready ui_analyze {[ "theme" := VStr "dark" ]}).2 !! "theme"
  = Some (VStr "dark").
Proof.
  rewrite (other_session_keys_are_kept env_ready ui_analyze
             {[ "theme" := VStr "dark" ]} "theme"); [reflexivity| |];
    discriminate.
Defined.

Lemma page_starts_with_the_form_witness :
  page (run env_ready ui_analyze ∅).2 !! 5%nat
  = Some (SuccessBox "Index created: my_product_index_1700000000 (ID: index-1)").
Proof.
  apply (proj2 (page_starts_with_the_form env_ready ui_analyze ∅)
           {| api_key := "key" |} "my_product_index_1700000000" models
           ["thumbnail"]
           {| idx_id := "index-1"; idx_name := "my_product_index_1700000000" |}).
  log_here.
Defined.

Lemma error_boxes_name_their_stage_witness :
  ErrorBox "Could not initialize 12Labs client. Check your API key setup in st.secrets."
    ∈ page (run env_no_key ui_analyze ∅).2
  ∧ ("Could not initialize 12Labs client. Check your API key setup in st.secrets."
     = "No video file provided. Please upload a valid file."
     ∨ "Could not initialize 12Labs client. Check your API key setup in st.secrets."
       = "Could not initialize 12Labs client. Check your API key setup in st.secrets."
     ∨ ∃ detail,
         ("Could not initialize 12Labs client. Check your API key setup in st.secrets."
          = oops (RuntimeError ("Failed to create index: " +:+ detail))
          ∨ "Could not initialize 12Labs client. Check your API key setup in st.secrets."
            = oops (RuntimeError ("Video upload/indexing failed: " +:+ detail))
          ∨ "Could not initialize 12Labs client. Check your API key setup in st.secrets."
            = oops (RuntimeError ("Text generation failed: " +:+ detail)))).
Proof.
  assert (Hin : ErrorBox "Could not initialize 12Labs client. Check your API key setup in st.secrets."
                ∈ page (run env_no_key ui_analyze ∅).2) by log_here.
  exact (conj Hin (error_boxes_name_their_stage env_no_key ui_analyze ∅ _ Hin)).
Defined.

Lemma runs_a_second_apart_get_distinct_names_witness :
  (0 <= now env_ready)%Q
  ∧ (now env_ready + 1 <= now env_next_second)%Q
  ∧ "my_product_index_1700000000" ≠ "my_product_index_1700000001".
Proof.
  assert (H0 : (0 <= now env_ready)%Q) by (by vm_compute).
  assert (H1 : (now env_ready + 1 <= now env_next_second)%Q) by (by vm_compute).
  split; [exact H0|]. split; [exact H1|].
  apply (runs_a_second_apart_get_distinct_names env_ready env_next_second
           ui_analyze ui_analyze ∅ ∅ {| api_key := "key" |} {| api_key := "key" |}
           "my_product_index_1700000000" "my_product_index_1700000001"
           models models ["thumbnail"] ["thumbnail"]
           (Ok {| idx_id := "index-1"; idx_name := "my_product_index_1700000000" |})
           (Ok {| idx_id := "index-1"; idx_name := "my_product_index_1700000001" |})
           H0 H1); log_here.
Defined.
